(** * Verification model of the ADK design agent (social media and wardrobe variants)

    Shallow embedding of [tools/post_creator_tool.py], [agent.py] and
    [deep_think_loop.py].  Session state is the ADK session's key/value
    dictionary; values are a small universe of Python values. *)

From Stdlib Require Import ZArith Lia Ascii.
From stdpp Require Import base gmap strings list.

Open Scope string_scope.
#[local] Set Warnings "-register-all".

(** ** Python values stored in session state *)

(** [PDecision] is an instance of the pydantic model [LoopDecision]; other
    objects the loop may store are not distinguished. *)
Inductive pyval :=
| PNone
| PBool (b : bool)
| PInt (z : Z)
| PStr (s : string)
| PList (l : list pyval)
| PDict (d : list (string * pyval))
| PDecision (should_continue : bool) (reason : string).

(** Python truthiness ([if x:] / [not x]); a pydantic model instance is truthy. *)
Definition truthy (v : pyval) : bool :=
  match v with
  | PNone => false
  | PBool b => b
  | PInt z => negb (Z.eqb z 0)
  | PStr s => negb (String.eqb s "")
  | PList l => negb (Nat.eqb (List.length l) 0)
  | PDict d => negb (Nat.eqb (List.length d) 0)
  | PDecision _ _ => true
  end.

(** Python dict operations on an insertion-ordered association list. *)
Fixpoint dget (d : list (string * pyval)) (k : string) : option pyval :=
  match d with
  | [] => None
  | (k', v) :: d' => if String.eqb k k' then Some v else dget d' k
  end.

(** [d[k] = v]: overwrite in place if [k] is present, append otherwise. *)
Fixpoint dset (d : list (string * pyval)) (k : string) (v : pyval)
  : list (string * pyval) :=
  match d with
  | [] => [(k, v)]
  | (k', v') :: d' =>
      if String.eqb k k' then (k', v) :: d' else (k', v') :: dset d' k v
  end.

(** The session state: [ctx.session.state] / [tool_context.state]. *)
Abbreviation session := (gmap string pyval).

(** [state.get(k, default)] *)
Definition sget (st : session) (k : string) (dflt : pyval) : pyval :=
  match st !! k with Some v => v | None => dflt end.

(** Decimal rendering of a non-negative integer, as in an f-string. *)
Definition digit_char (n : nat) : ascii :=
  ascii_of_nat (48 + n).

Fixpoint nat_to_digits_aux (fuel n : nat) (acc : string) : string :=
  match fuel with
  | O => acc
  | S fuel' =>
      let acc' := String (digit_char (n mod 10)) acc in
      if Nat.ltb n 10 then acc' else nat_to_digits_aux fuel' (n / 10) acc'
  end.

Definition Z_to_string (z : Z) : string :=
  if Z.ltb z 0 then "-" ++ nat_to_digits_aux (S (Z.to_nat (- z))) (Z.to_nat (- z)) ""
  else nat_to_digits_aux (S (Z.to_nat z)) (Z.to_nat z) "".

(** ** Version ledger ([tools/post_creator_tool.py], lines 14-39) *)
Module Ledger.

(** [x + 1] on a Python value: [None] is a [TypeError] ([bool] is an [int]). *)
Definition py_add (v : pyval) (k : Z) : option Z :=
  match v with
  | PInt z => Some (z + k)%Z
  | PBool b => Some ((if b then 1 else 0) + k)%Z
  | _ => None
  end.

(** [get_next_version_number]: returns the next version (or [None] when it
    raises) together with the session state it leaves behind. *)
Definition get_next_version_number (st : session) (asset_name : string)
    : option Z * session :=
  let asset_versions := sget st "asset_versions" (PDict []) in
  match asset_versions with
  | PDict d =>
      let current_version := default (PInt 0) (dget d asset_name) in
      let next_version := py_add current_version 1 in
      (next_version, st)
  | _ => (None, st)                             (* no [.get] on a non-dict *)
  end.

(** The version the ledger records for an asset, as [get_asset_versions_info]
    reads [asset_versions]; a name never recorded counts as version 0. *)
Definition current_version (st : session) (asset_name : string) : Z :=
  match st !! "asset_versions" with
  | Some (PDict d) => match dget d asset_name with Some (PInt z) => z | _ => 0%Z end
  | _ => 0%Z
  end.

(** The ledger holds an integer (or nothing) for [asset_name]. *)
Definition ledger_wf (st : session) (asset_name : string) : Prop :=
  st !! "asset_versions" = None \/
  exists d, st !! "asset_versions" = Some (PDict d) /\
            (dget d asset_name = None \/ exists z, dget d asset_name = Some (PInt z)).

Definition never_recorded (st : session) (asset_name : string) : Prop :=
  st !! "asset_versions" = None \/
  exists d, st !! "asset_versions" = Some (PDict d) /\ dget d asset_name = None.

(** In-place update of a nested dict stored under [key]. *)
Definition nested_set (st : session) (key k : string) (v : pyval) : option session :=
  match st !! key with
  | Some (PDict d) => Some (<[key := PDict (dset d k v)]> st)
  | _ => None
  end.

Definition history_key (asset_name : string) : string := asset_name ++ "_history".

Definition history_entry (version : Z) (filename : string) : pyval :=
  PDict [("version", PInt version); ("filename", PStr filename)].

(** [update_asset_version] on [tool_context.state]: the state it leaves and
    whether it returns normally.  The nested assignments
    [state["asset_versions"][asset_name] = version] and [.append] raise a
    [TypeError] when the stored value is not a dict (resp. list); the writes
    made before the failing one stay in the state ([false]). *)
Definition update_asset_version (st : session) (asset_name : string)
    (version : Z) (filename : string) : session * bool :=
  let st1 := if decide (is_Some (st !! "asset_versions")) then st
             else <["asset_versions" := PDict []]> st in
  let st2 := if decide (is_Some (st1 !! "asset_filenames")) then st1
             else <["asset_filenames" := PDict []]> st1 in
  match nested_set st2 "asset_versions" asset_name (PInt version) with None => (st2, false) | Some st3 =>
  match nested_set st3 "asset_filenames" asset_name (PStr filename) with None => (st3, false) | Some st4 =>
  let hk := history_key asset_name in
  let st5 := if decide (is_Some (st4 !! hk)) then st4 else <[hk := PList []]> st4 in
  match st5 !! hk with
  | Some (PList l) => (<[hk := PList (app l [history_entry version filename])]> st5, true)
  | _ => (st5, false)
  end end end.

(** [create_versioned_filename] *)
Definition create_versioned_filename (asset_name : string) (version : Z)
    (file_extension : string) : string :=
  asset_name ++ "_v" ++ Z_to_string version ++ "." ++ file_extension.

End Ledger.

(** ** External collaborators *)

(** A [types.Part] carrying inline data. *)
Record part := mkPart { mime_type : string; data : string }.

(** A part of a request to the model: text, or an inline image part. *)
Inductive content_part :=
| CText (s : string)
| CInline (p : part).

(** A chunk of [generate_content_stream]: [ChSkip] has no candidates, content
    or parts; [ChPart (Some p)] has [parts[0].inline_data = p]; [ChPart None]
    has a first part without inline data (a text chunk). *)
Inductive chunk :=
| ChSkip
| ChPart (inline : option part).

(** Outcomes of the external calls made during one tool invocation. [None]
    means the call raises. *)
Record model_env := mkEnv {
  env_api_key : bool;
  env_rewrite : string -> option string;
  env_stream : list content_part -> option (list chunk);
  env_save_fails : bool
}.

(** The invocation context seen by a tool: session state, the artifact
    service (ADK's [InMemoryArtifactService]: every filename keeps its list
    of revisions; [save_artifact] returns the 0-based index of the new
    revision, [load_artifact] the latest one), and the log of image-model
    requests. *)
Record ctx := mkCtx {
  st : session;
  arts : gmap string (list part);
  calls : list (list content_part)
}.

Definition set_st (c : ctx) (s : session) : ctx := mkCtx s (arts c) (calls c).
Definition log_call (c : ctx) (req : list content_part) : ctx :=
  mkCtx (st c) (arts c) (app (calls c) [req]).

Definition save_artifact (c : ctx) (filename : string) (p : part) : Z * ctx :=
  let revs : list part := default [] (arts c !! filename) in
  (Z.of_nat (List.length revs), mkCtx (st c) (<[filename := app revs [p]]> (arts c)) (calls c)).

Definition load_artifact (c : ctx) (filename : string) : option part :=
  match arts c !! filename with Some revs => last revs | None => None end.

(** Result of a tool: the returned string, or an exception that escapes. *)
Inductive outcome :=
| Returned (s : string)
| Raised (msg : string).

Definition opt_truthy (o : option string) : option string :=
  match o with Some s => if String.eqb s "" then None else Some s | None => None end.

(** A state value used as a filename; a value that is not a non-empty
    string gives no usable reference ([load_reference_image] turns the
    failing load into [None]). *)
Definition as_filename (v : pyval) : option string :=
  match v with PStr s => opt_truthy (Some s) | _ => None end.

Fixpoint first_image (cs : list chunk) : option part :=
  match cs with
  | [] => None
  | ChSkip :: cs' => first_image cs'
  | ChPart (Some p) :: cs' => if String.eqb (data p) "" then first_image cs' else Some p
  | ChPart None :: cs' => first_image cs'
  end.

(** ** Social media variant: [tools/post_creator_tool.py] *)
Module Post.
Import Ledger.

Record GenerateImageInput := mkGen {
  gi_prompt : string;
  gi_aspect_ratio : option string;
  gi_text_overlay : option string;
  gi_asset_name : string;
  gi_reference_image_filename : option string
}.

Record EditImageInput := mkEdit {
  ei_artifact_filename : string;
  ei_prompt : string;
  ei_asset_name : option string;
  ei_reference_image_filename : option string
}.

(** [get_latest_reference_image_filename] *)
Definition get_latest_reference_image_filename (s : session) : pyval :=
  sget s "latest_reference_image" PNone.

(** Lines 114-126 (and 238-250 of [edit_image]): which reference image is
    used. *)
Definition reference_filename (s : session) (r : option string) : option string :=
  match opt_truthy r with
  | None => None
  | Some r' =>
      if String.eqb r' "latest" then as_filename (get_latest_reference_image_filename s)
      else Some r'
  end.

(** [load_reference_image] *)
Definition load_reference_image (c : ctx) (filename : string) : option part :=
  load_artifact c filename.

Definition reference_image_part (c : ctx) (r : option string) : option part :=
  match reference_filename (st c) r with
  | Some fn => load_reference_image c fn
  | None => None
  end.

Definition base_rewrite_prompt (inputs : GenerateImageInput) (has_ref : bool) : string :=
  let p0 := "Rewrite the following prompt to be more descriptive and creative for an image generation model, adding relevant creative details: "
            ++ gi_prompt inputs ++ " **Important:** Output your prompt as a single paragraph" in
  let p1 := match opt_truthy (gi_text_overlay inputs) with
            | Some t => p0 ++ " the image should have the following text overlayed on it: '" ++ t ++ "'"
            | None => p0 end in
  let p2 := match opt_truthy (gi_aspect_ratio inputs) with
            | Some a => p1 ++ " the image should be of aspect ratio: " ++ a
            | None => p1 end in
  if has_ref then p2 ++ " Use the provided reference image as inspiration for style, composition, or visual elements."
  else p2.

Definition with_reference (ps : list content_part) (ref : option part) : list content_part :=
  match ref with Some p => app ps [CInline p] | None => ps end.

Definition save_error (e : string) : string := "Error saving generated image as artifact: " ++ e.
Definition store_error : string := "store write failed".

(** [generate_image] *)
Definition generate_image (env : model_env) (c : ctx) (inputs : GenerateImageInput)
    : outcome * ctx :=
  if negb (env_api_key env) then (Raised "GEMINI_API_KEY environment variable not set.", c)
  else
  let ref := reference_image_part c (gi_reference_image_filename inputs) in
  match env_rewrite env (base_rewrite_prompt inputs (bool_decide (is_Some ref))) with
  | None => (Returned "", c)                     (* except Exception: return "" *)
  | Some rewritten_prompt =>
  let contents := with_reference [CText rewritten_prompt] ref in
  match fst (get_next_version_number (st c) (gi_asset_name inputs)) with
  | None => (Returned "", c)
  | Some version =>
  let artifact_filename := create_versioned_filename (gi_asset_name inputs) version "png" in
  let c1 := log_call c contents in
  match env_stream env contents with
  | None => (Returned "", c1)
  | Some chunks =>
  match first_image chunks with
  | None => (Returned "No image was generated", c1)
  | Some image_part =>
      if env_save_fails env then (Returned (save_error store_error), c1) else
      let '(version, c2) := save_artifact c1 artifact_filename image_part in
      match update_asset_version (st c2) (gi_asset_name inputs) version artifact_filename with
      | (s3, false) => (Returned (save_error "TypeError"), set_st c2 s3)
      | (s3, true) =>
          let s4 := <["last_generated_image" := PStr artifact_filename]> s3 in
          let s5 := <["current_asset_name" := PStr (gi_asset_name inputs)]> s4 in
          (Returned ("Image generated successfully! Saved as artifact: " ++ artifact_filename
                     ++ " (version " ++ Z_to_string version ++ " of " ++ gi_asset_name inputs ++ ")"),
           set_st c2 s5)
      end
  end end end end.

(** [s.split('_v')[0] if '_v' in s]: the text before the first ["_v"]. *)
Fixpoint before_v (s : string) : option string :=
  match s with
  | EmptyString => None
  | String a s' =>
      match s' with
      | String b _ =>
          if Ascii.eqb a "_"%char && Ascii.eqb b "v"%char then Some ""
          else option_map (String a) (before_v s')
      | EmptyString => None
      end
  end.

Definition edit_save_error (e : string) : string := "Error saving edited image as artifact: " ++ e.

(** Lines 273-284 of [edit_image]: the asset the edit is recorded under. *)
Definition edit_asset_name (s : session) (inputs : EditImageInput) : string :=
  match opt_truthy (ei_asset_name inputs) with
  | Some a => a
  | None =>
      match as_filename (sget s "current_asset_name" PNone) with
      | Some a => a
      | None => default "marketing_post" (before_v (ei_artifact_filename inputs))
      end
  end.

(** [edit_image] *)
Definition edit_image (env : model_env) (c : ctx) (inputs : EditImageInput)
    : outcome * ctx :=
  if negb (env_api_key env) then (Raised "GEMINI_API_KEY environment variable not set.", c)
  else
  match load_artifact c (ei_artifact_filename inputs) with
  | None => (Returned ("Could not find image artifact: " ++ ei_artifact_filename inputs), c)
  | Some loaded_image_part =>
  let ref := reference_image_part c (ei_reference_image_filename inputs) in
  let contents := with_reference [CInline loaded_image_part; CText (ei_prompt inputs)] ref in
  let asset_name := edit_asset_name (st c) inputs in
  match fst (get_next_version_number (st c) asset_name) with
  | None => (Returned "", c)
  | Some version =>
  let edited_artifact_filename := create_versioned_filename asset_name version "png" in
  let c1 := log_call c contents in
  match env_stream env contents with
  | None => (Returned "", c1)
  | Some chunks =>
  match first_image chunks with
  | None => (Returned "No edited image was generated", c1)
  | Some edited_image_part =>
      if env_save_fails env then (Returned (edit_save_error store_error), c1) else
      let '(version, c2) := save_artifact c1 edited_artifact_filename edited_image_part in
      match update_asset_version (st c2) asset_name version edited_artifact_filename with
      | (s3, false) => (Returned (edit_save_error "TypeError"), set_st c2 s3)
      | (s3, true) =>
          let s4 := <["last_generated_image" := PStr edited_artifact_filename]> s3 in
          let s5 := <["current_asset_name" := PStr asset_name]> s4 in
          (Returned ("Image edited successfully! Saved as artifact: " ++ edited_artifact_filename
                     ++ " (version " ++ Z_to_string version ++ " of " ++ asset_name ++ ")"),
           set_st c2 s5)
      end
  end end end end.

End Post.

(** ** Reference image upload: [process_reference_images_callback] ([agent.py]) *)
Module Upload.
Import Ledger.

Definition is_image (p : part) : bool := String.prefix "image/" (mime_type p).

(** The first inline image part of a message. *)
Fixpoint find_image_part (ps : list content_part) : option part :=
  match ps with
  | [] => None
  | CInline p :: ps' => if is_image p then Some p else find_image_part ps'
  | CText _ :: ps' => find_image_part ps'
  end.

(** [len(state.get("reference_images", {}))]; [None] is a [TypeError]. *)
Definition py_len (v : pyval) : option nat :=
  match v with
  | PDict d => Some (List.length d)
  | PList l => Some (List.length l)
  | PStr s => Some (String.length s)
  | _ => None
  end.

Definition reference_filename_for (n : nat) : string :=
  "reference_image_v" ++ Z_to_string (Z.of_nat n) ++ ".png".

(** The callback on the request [contents] (one list of parts per message);
    [save_fails] is the outcome of [save_artifact]. [None]: the callback
    raises. *)
Definition process_reference_images_callback (save_fails : bool) (c : ctx)
    (contents : list (list content_part)) : option ctx :=
  match last contents with
  | None => Some c                              (* if not llm_request.contents *)
  | Some latest_user_message =>
  match find_image_part latest_user_message with
  | None => Some c
  | Some image_part =>
  match py_len (sget (st c) "reference_images" (PDict [])) with
  | None => None
  | Some n =>
  let ref_count := (n + 1)%nat in
  let filename := reference_filename_for ref_count in
  if save_fails then Some c else                (* except: logged *)
  let '(version, c1) := save_artifact c filename image_part in
  let s1 := if decide (is_Some (st c1 !! "reference_images")) then st c1
            else <["reference_images" := PDict []]> (st c1) in
  match nested_set s1 "reference_images" filename
          (PDict [("version", PInt (Z.of_nat ref_count)); ("uploaded_version", PInt version)]) with
  | None => Some (set_st c1 s1)                 (* TypeError, logged *)
  | Some s2 => Some (set_st c1 (<["latest_reference_image" := PStr filename]> s2))
  end
  end end end.

End Upload.

(** ** Wardrobe variant: [wardrobe_design_agent/tools/post_creator_tool.py] *)
Module Wardrobe.
Import Ledger.
Import Post.

(** Lines 113-118: an unset, empty or ["latest"] name falls back to the
    session's latest reference image. *)
Definition reference_filename (s : session) (r : option string) : option string :=
  match opt_truthy r with
  | None => as_filename (sget s "latest_reference_image" PNone)
  | Some r' =>
      if String.eqb r' "latest" then as_filename (sget s "latest_reference_image" PNone)
      else Some r'
  end.

Definition reference_image_part (c : ctx) (r : option string) : option part :=
  match reference_filename (st c) r with
  | Some fn => load_artifact c fn
  | None => None
  end.

Definition faithful_prompt (inputs : GenerateImageInput) : string :=
  let p := "Create a FAITHFUL reproduction of the garment in the reference image: " ++ gi_prompt inputs
    ++ " NANO BANANA FAITHFUL REPRODUCTION: - Reproduce EXACT garment from reference image - Maintain identical design, proportions, details - Preserve original color palette and material texture - Professional e-commerce white background - Studio lighting with clean shadows" in
  match opt_truthy (gi_aspect_ratio inputs) with
  | Some a => p ++ " - Aspect ratio: " ++ a
  | None => p
  end.

Definition regular_prompt (inputs : GenerateImageInput) : string :=
  let p := "Create a luxury " ++ gi_prompt inputs
    ++ " with professional e-commerce photography, white background, studio lighting" in
  match opt_truthy (gi_aspect_ratio inputs) with
  | Some a => p ++ ", aspect ratio " ++ a
  | None => p
  end.

(** Lines 165-172: the first chunk whose first part has inline data. *)
Fixpoint first_inline (cs : list chunk) : option part :=
  match cs with
  | [] => None
  | ChPart (Some p) :: _ => Some p
  | _ :: cs' => first_inline cs'
  end.

Definition error_text (e : string) : string := "[X] Error: " ++ e.

(** [generate_image] of the wardrobe variant.  The emoji prefixes of the
    returned strings are written [[OK]] and [[X]]; the line breaks of the
    prompts are written as spaces. *)
Definition generate_image (env : model_env) (c : ctx) (inputs : GenerateImageInput)
    : outcome * ctx :=
  if negb (env_api_key env) then (Raised "GOOGLE_API_KEY environment variable not set.", c)
  else
  let reference_image_part := reference_image_part c (gi_reference_image_filename inputs) in
  let prompt := match reference_image_part with
                | Some _ => faithful_prompt inputs
                | None => regular_prompt inputs end in
  let contents := with_reference [CText prompt] reference_image_part in
  match fst (get_next_version_number (st c) (gi_asset_name inputs)) with
  | None => (Returned (error_text "TypeError"), c)
  | Some version =>
  let artifact_filename := create_versioned_filename (gi_asset_name inputs) version "png" in
  let c1 := log_call c contents in
  match env_stream env contents with
  | None => (Returned (error_text "model call failed"), c1)
  | Some chunks =>
  match first_inline chunks with
  | None => (Returned "[X] No image was generated", c1)
  | Some image_part =>
      if env_save_fails env then (Returned (error_text store_error), c1) else
      let '(version, c2) := save_artifact c1 artifact_filename image_part in
      match update_asset_version (st c2) (gi_asset_name inputs) version artifact_filename with
      | (s3, false) => (Returned (error_text "TypeError"), set_st c2 s3)
      | (s3, true) =>
          let s4 := <["last_generated_image" := PStr artifact_filename]> s3 in
          (Returned ("[OK] Faithful reproduction generated: " ++ artifact_filename
                     ++ " (v" ++ Z_to_string version ++ ")"), set_st c2 s4)
      end
  end end end.

End Wardrobe.

(** ** The deep think loop ([deep_think_loop.py]) *)
Module DeepThink.
Import Ledger.

Inductive gen_mode := CREATE | EDIT.

(** String form of a state value in an instruction template. *)
Definition render (v : pyval) : string :=
  match v with
  | PNone => "None"
  | PBool true => "True"
  | PBool false => "False"
  | PInt z => Z_to_string z
  | PStr s => s
  | _ => "<object>"
  end.

(** The language-model stages, as functions of the (0-based) pass number:
    the text [PromptCaptureAgent] stores, the state effect of the tool call
    [ContentGenAgent] makes in the given mode, and the structured outputs
    of [ContentReviewAgent] and [LoopControlAgent]. *)
Record stages := mkStages {
  capture : nat -> string;
  generate : nat -> gen_mode -> session -> session;
  review : nat -> pyval;
  decide_loop : nat -> pyval
}.

(** What the run shows: the tool the generation stage picked together with
    the [deep_think_iteration] it read, and the counter and verdict of each
    termination check. *)
Inductive event :=
| EDispatch (m : gen_mode) (counter : pyval)
| ECheck (counter : pyval) (should_continue : bool).

(** [DeepThinkPreparationAgent._run_async_impl]; [None]: [+ 1] raises. *)
Definition preparation (s : session) : option session :=
  let s1 := if truthy (sget s "deep_think_iteration" PNone) then s
            else <["deep_think_iteration" := PInt 0]> s in
  let s2 := if truthy (sget s1 "iteration_count" PNone) then s1
            else <["iteration_count" := PInt 0]> s1 in
  let s3 := if truthy (sget s2 "previous_feedback" PNone) then s2
            else <["previous_feedback" := PDict []]> s2 in
  match py_add (sget s3 "deep_think_iteration" (PInt 0)) 1 with
  | None => None
  | Some iteration_count =>
      if Z.gtb iteration_count 1 then Some s3
      else Some (<["content_review" := PStr ""]> s3)
  end.

(** [ContentGenAgent]: "if deep_think_iteration: {deep_think_iteration} is 1,
    call the generate_image tool, else call the edit_image tool". *)
Definition dispatch (s : session) : gen_mode :=
  if String.eqb (render (sget s "deep_think_iteration" PNone)) "1" then CREATE else EDIT.

(** [iteration_count >= 4]; [None]: the comparison raises. *)
Definition at_cap (v : pyval) : option bool :=
  match v with
  | PInt z => Some (Z.leb 4 z)
  | PBool _ => Some false
  | _ => None
  end.

(** Lines 122-130: the verdict read from [loop_decision]. *)
Definition read_decision (loop_decision : pyval) : pyval * string :=
  match loop_decision with
  | PDecision b r => (PBool b, r)
  | PDict d =>
      (default (PBool true) (dget d "should_continue"),
       match default (PStr "No reason provided") (dget d "reason") with
       | PStr r => r | v => render v end)
  | _ => (PBool true, "No decision found")
  end.

(** The [state_delta] of the final event. *)
Definition reset_delta (s : session) : session :=
  <["deep_think_mode" := PBool false]>
  (<["deep_think_iteration" := PInt 0]>
  (<["original_deep_think_prompt" := PNone]>
  (<["content_review" := PNone]>
  (<["loop_decision" := PNone]> s)))).

(** [LoopTerminationAgent._run_async_impl]: whether to continue, and the
    state after its event; [None]: the cap comparison raises. *)
Definition termination (s : session) : option (bool * session) :=
  let loop_decision := sget s "loop_decision" PNone in
  let iteration_count := sget s "deep_think_iteration" (PInt 0) in
  let '(should_continue, reason) := read_decision loop_decision in
  match at_cap iteration_count with
  | None => None
  | Some cap =>
      let should_continue := if cap then PBool false else should_continue in
      if truthy should_continue then Some (true, s)
      else Some (false, reset_delta s)
  end.

(** Whether every key of [ks] is in the state. *)
Definition has_keys (s : session) (ks : list string) : bool :=
  forallb (fun k => bool_decide (is_Some (s !! k))) ks.

Section Loop.
Variable ag : stages.

(** One pass of the sub-agents; [Some (s', events, escalate)].  [None]: a
    stage raises, [+ 1] in the preparation stage or ADK's instruction
    templating, which raises a [KeyError] for a [{key}] of an instruction
    that is not in the state ([ContentGenAgent]: [deep_think_iteration],
    [content_review]; [ContentReviewAgent]: [last_generated_image],
    [original_prompt], [iteration_count], [previous_feedback];
    [LoopControlAgent]: [iteration_count], [content_review]). *)
Definition pass (k : nat) (s : session) : option (session * list event * bool) :=
  match preparation s with
  | None => None
  | Some s1 =>
  let s2 := <["original_prompt" := PStr (capture ag k)]> s1 in
  if negb (has_keys s2 ["deep_think_iteration"; "content_review"]) then None else
  let m := dispatch s2 in
  let e1 := EDispatch m (sget s2 "deep_think_iteration" PNone) in
  let s3 := generate ag k m s2 in
  if negb (has_keys s3 ["last_generated_image"; "original_prompt"; "iteration_count";
                        "previous_feedback"]) then None else
  let s4 := <["content_review" := review ag k]> s3 in
  if negb (has_keys s4 ["iteration_count"; "content_review"]) then None else
  let s5 := <["loop_decision" := decide_loop ag k]> s4 in
  let counter := sget s5 "deep_think_iteration" (PInt 0) in
  match termination s5 with
  | None => None
  | Some (cont, s6) => Some (s6, [e1; ECheck counter cont], negb cont)
  end
  end.

Inductive ending := Escalated | MaxIterations | Crashed.

Record run := mkRun {
  r_state : session;
  r_passes : nat;
  r_events : list event;
  r_end : ending
}.

(** ADK's [LoopAgent]: run the sub-agents in order until an event escalates,
    at most [max_iterations] times. *)
Fixpoint loop_from (fuel k : nat) (s : session) (evs : list event) : run :=
  match fuel with
  | O => mkRun s k evs MaxIterations
  | S fuel' =>
      match pass k s with
      | None => mkRun s (S k) evs Crashed
      | Some (s', evs', true) => mkRun s' (S k) (app evs evs') Escalated
      | Some (s', evs', false) => loop_from fuel' (S k) s' (app evs evs')
      end
  end.

Definition max_iterations : nat := 5.

Definition deep_think_loop (s : session) : run := loop_from max_iterations 0 s [].

End Loop.

End DeepThink.

(** ** Listing tools: [get_asset_versions_info] and [get_reference_images_info]
    ([tools/post_creator_tool.py], lines 41-68; the same in the wardrobe
    variant) *)
Module Listing.
Import Ledger.

Definition nl : string := String (ascii_of_nat 10) EmptyString.

(** [sep.join(xs)] *)
Fixpoint join (sep : string) (xs : list string) : string :=
  match xs with
  | [] => ""
  | [x] => x
  | x :: xs' => x ++ sep ++ join sep xs'
  end.

(** [len(v)]; [None] is a [TypeError]. *)
Definition py_len (v : pyval) : option nat :=
  match v with
  | PDict d => Some (List.length d)
  | PList l => Some (List.length l)
  | PStr s => Some (String.length s)
  | _ => None
  end.

(** The loop body for one [(asset_name, current_version)] item; [None]: it
    raises ([len] of a non-sized history, [.get] on a non-dict
    [asset_filenames]). *)
Definition asset_line (s : session) (asset_name : string) (current_version : pyval)
    : option string :=
  let history := sget s (history_key asset_name) (PList []) in
  match py_len history with
  | None => None
  | Some total_versions =>
  match sget s "asset_filenames" (PDict []) with
  | PDict f =>
      let latest_filename := default (PStr "Unknown") (dget f asset_name) in
      Some ("  • " ++ asset_name ++ ": " ++ Z_to_string (Z.of_nat total_versions)
            ++ " version(s), latest is v" ++ DeepThink.render current_version
            ++ " (" ++ DeepThink.render latest_filename ++ ")")
  | _ => None
  end end.

Fixpoint asset_lines (s : session) (d : list (string * pyval)) : option (list string) :=
  match d with
  | [] => Some []
  | (a, v) :: d' =>
      match asset_line s a v with
      | None => None
      | Some l => match asset_lines s d' with Some ls => Some (l :: ls) | None => None end
      end
  end.

(** [get_asset_versions_info]; [None]: it raises ([.items()] on a truthy
    non-dict). *)
Definition get_asset_versions_info (s : session) : option string :=
  let asset_versions := sget s "asset_versions" (PDict []) in
  if negb (truthy asset_versions) then Some "No marketing assets have been created yet."
  else
  match asset_versions with
  | PDict d =>
      match asset_lines s d with
      | Some ls => Some (join nl ("Current marketing assets:" :: ls))
      | None => None
      end
  | _ => None
  end.

(** The loop body for one [(filename, info)] item; [info.get] raises on a
    non-dict. *)
Definition reference_line (filename : string) (info : pyval) : option string :=
  match info with
  | PDict i =>
      let version := default (PStr "Unknown") (dget i "version") in
      Some ("  • " ++ filename ++ " (reference v" ++ DeepThink.render version ++ ")")
  | _ => None
  end.

Fixpoint reference_lines (d : list (string * pyval)) : option (list string) :=
  match d with
  | [] => Some []
  | (fn, info) :: d' =>
      match reference_line fn info with
      | None => None
      | Some l => match reference_lines d' with Some ls => Some (l :: ls) | None => None end
      end
  end.

(** [get_reference_images_info] *)
Definition get_reference_images_info (s : session) : option string :=
  let reference_images := sget s "reference_images" (PDict []) in
  if negb (truthy reference_images) then Some "No reference images have been uploaded yet."
  else
  match reference_images with
  | PDict d =>
      match reference_lines d with
      | Some ls => Some (join nl ("Available reference images:" :: ls))
      | None => None
      end
  | _ => None
  end.

End Listing.

(** ** Wardrobe variant: [edit_image], [store_reference_image]
    ([wardrobe_design_agent/tools/post_creator_tool.py], lines 193-380) and
    [auto_store_reference_images] ([wardrobe_design_agent/agent.py]) *)
Module WardrobeTools.
Import Ledger Post.

Definition faithful_edit_prompt (inputs : EditImageInput) : string :=
  "Edit this garment image using the reference image as a guide for faithful reproduction: "
  ++ ei_prompt inputs ++ Listing.nl ++ Listing.nl
  ++ "🎯 NANO BANANA FAITHFUL EDITING:" ++ Listing.nl
  ++ "- Use the reference image to guide style, colors, and details" ++ Listing.nl
  ++ "- Maintain consistency with the reference image's design language" ++ Listing.nl
  ++ "- Preserve authentic garment construction and proportions" ++ Listing.nl
  ++ "- Keep the luxury aesthetic and material quality" ++ Listing.nl
  ++ "- Professional e-commerce photography standards".

(** [edit_image] of the wardrobe variant: the social media [edit_image]
    with the faithful-editing prompt when a reference image loads. *)
Definition edit_image (env : model_env) (c : ctx) (inputs : EditImageInput)
    : outcome * ctx :=
  if negb (env_api_key env) then (Raised "GOOGLE_API_KEY environment variable not set.", c)
  else
  match load_artifact c (ei_artifact_filename inputs) with
  | None => (Returned ("Could not find image artifact: " ++ ei_artifact_filename inputs), c)
  | Some loaded_image_part =>
  let ref := reference_image_part c (ei_reference_image_filename inputs) in
  let edit_prompt := match ref with
                     | Some _ => faithful_edit_prompt inputs
                     | None => ei_prompt inputs end in
  let contents := with_reference [CInline loaded_image_part; CText edit_prompt] ref in
  let asset_name := edit_asset_name (st c) inputs in
  match fst (get_next_version_number (st c) asset_name) with
  | None => (Returned "", c)
  | Some version =>
  let edited_artifact_filename := create_versioned_filename asset_name version "png" in
  let c1 := log_call c contents in
  match env_stream env contents with
  | None => (Returned "", c1)
  | Some chunks =>
  match first_image chunks with
  | None => (Returned "No edited image was generated", c1)
  | Some edited_image_part =>
      if env_save_fails env then (Returned (edit_save_error store_error), c1) else
      let '(version, c2) := save_artifact c1 edited_artifact_filename edited_image_part in
      match update_asset_version (st c2) asset_name version edited_artifact_filename with
      | (s3, false) => (Returned (edit_save_error "TypeError"), set_st c2 s3)
      | (s3, true) =>
          let s4 := <["last_generated_image" := PStr edited_artifact_filename]> s3 in
          let s5 := <["current_asset_name" := PStr asset_name]> s4 in
          (Returned ("Image edited successfully! Saved as artifact: " ++ edited_artifact_filename
                     ++ " (version " ++ Z_to_string version ++ " of " ++ asset_name ++ ")"),
           set_st c2 s5)
      end
  end end end end.





Section AutoStore.
(** The first 8 hex digits of the MD5 digest of the image bytes, the
    [int(time.time())] read when storing the [i]-th image of the request,
    and whether [save_artifact] raises (the exception is logged). *)
Variable md5_8 : string -> string.
Variable clock : nat -> Z.
Variable save_fails : bool.

Definition auto_filename (i : nat) (p : part) : string :=
  "reference_" ++ md5_8 (data p) ++ "_" ++ Z_to_string (clock i) ++ ".jpg".

(** The loop over the parts of all messages; [i] counts the image parts
    already met. *)
Fixpoint store_parts (i : nat) (c : ctx) (ps : list content_part) : ctx :=
  match ps with
  | [] => c
  | CInline p :: ps' =>
      if Upload.is_image p then
        if save_fails then store_parts (S i) c ps' else
        let filename := auto_filename i p in
        let '(_, c1) := save_artifact c filename p in
        store_parts (S i) (set_st c1 (<["latest_reference_image" := PStr filename]> (st c1))) ps'
      else store_parts i c ps'
  | CText _ :: ps' => store_parts i c ps'
  end.

(** [auto_store_reference_images] (the [before_model_callback] of the
    wardrobe agent) on the request [contents]. *)
Definition auto_store_reference_images (c : ctx) (contents : list (list content_part)) : ctx :=
  match contents with
  | [] => c
  | _ => store_parts 0 c (concat contents)
  end.

End AutoStore.

End WardrobeTools.

(** ** [detect_deep_think_callback] ([agent.py], lines 18-78)

    Text is handled byte-wise: [lower], [strip] and [split] act on ASCII
    letters and ASCII whitespace. *)
Module Detect.

Definition is_ws (c : ascii) : bool :=
  let n := nat_of_ascii c in
  (Nat.leb 9 n && Nat.leb n 13) || (Nat.leb 28 n && Nat.leb n 32).

Fixpoint lower (s : string) : string :=
  match s with
  | EmptyString => EmptyString
  | String c s' =>
      let n := nat_of_ascii c in
      String (if Nat.leb 65 n && Nat.leb n 90 then ascii_of_nat (n + 32) else c) (lower s')
  end.

Fixpoint lstrip (s : string) : string :=
  match s with
  | String c s' => if is_ws c then lstrip s' else s
  | EmptyString => EmptyString
  end.

Fixpoint rstrip (s : string) : string :=
  match s with
  | EmptyString => EmptyString
  | String c s' =>
      let r := rstrip s' in
      if String.eqb r "" && is_ws c then "" else String c r
  end.

(** [s.strip()] *)
Definition strip (s : string) : string := rstrip (lstrip s).

(** [sub in s] *)
Fixpoint contains (sub s : string) : bool :=
  String.prefix sub s ||
  match s with
  | EmptyString => false
  | String _ s' => contains sub s'
  end.

(** [s.replace(old, new)] for a non-empty [old]: left to right, without
    overlaps; [fuel] is [len(s)]. *)
Fixpoint replace_aux (fuel : nat) (old new s : string) : string :=
  match fuel with
  | O => s
  | S fuel' =>
      match s with
      | EmptyString => EmptyString
      | String c s' =>
          if String.prefix old s
          then new ++ replace_aux fuel' old new
                 (String.substring (String.length old) (String.length s - String.length old) s)
          else String c (replace_aux fuel' old new s')
      end
  end.

Definition replace (s old new : string) : string := replace_aux (String.length s) old new s.

(** [s.split()]: the maximal runs of non-whitespace; [cur] is the word
    being read. *)
Fixpoint split_aux (s cur : string) : list string :=
  match s with
  | EmptyString => if String.eqb cur "" then [] else [cur]
  | String c s' =>
      if is_ws c then (if String.eqb cur "" then split_aux s' "" else cur :: split_aux s' "")
      else split_aux s' (cur ++ String c EmptyString)
  end.

Definition split (s : string) : list string := split_aux s "".

(** [user_text]: the text of every part with a non-empty [text], each
    followed by a space. *)
Fixpoint user_text (ps : list content_part) : string :=
  match ps with
  | [] => ""
  | CText t :: ps' => if String.eqb t "" then user_text ps' else t ++ " " ++ user_text ps'
  | CInline _ :: ps' => user_text ps'
  end.

Definition is_text_part (p : content_part) : bool :=
  match p with CText t => negb (String.eqb t "") | CInline _ => false end.

(** The loop that rebuilds the parts; [empty] is [not cleaned_parts]. *)
Fixpoint clean_parts (cleaned_text : string) (empty : bool) (ps : list content_part)
    : list content_part :=
  match ps with
  | [] => []
  | p :: ps' =>
      if is_text_part p then
        if empty then CText cleaned_text :: clean_parts cleaned_text false ps'
        else clean_parts cleaned_text empty ps'
      else p :: clean_parts cleaned_text false ps'
  end.

(** [detect_deep_think_callback] on the parts of [callback_context.user_content]
    ([[]] when there is no content or no parts): the state after it and the
    parts of the user content after it. *)
Definition detect_deep_think_callback (s : session) (parts : list content_part)
    : session * list content_part :=
  let s0 := if decide (is_Some (s !! "deep_think_mode")) then s
            else <["deep_think_mode" := PBool false]> s in
  match parts with
  | [] => (<["deep_think_mode" := PBool false]> s0, parts)
  | _ =>
  let t := user_text parts in
  if String.eqb (strip t) "" then (<["deep_think_mode" := PBool false]> s0, parts)
  else if contains "deep think" (lower t) then
    let s1 := <["deep_think_mode" := PBool true]> s0 in
    let s2 := <["original_deep_think_prompt" := PStr (strip t)]> s1 in
    let cleaned_text := replace (replace (replace t "deep think" "") "Deep Think" "") "DEEP THINK" "" in
    let cleaned_text := Listing.join " " (split cleaned_text) in
    (s2, clean_parts cleaned_text true parts)
  else (<["deep_think_mode" := PBool false]> s0, parts)
  end.

End Detect.

(** * Properties *)

(** ** Version ledger *)
Module LedgerFacts.
Import Ledger.

(** C5: [get_next_version_number] returns the recorded version plus one
    (1 for a name never recorded), leaves the session state as it was, and
    so returns the same value when called twice in a row. *)
Theorem C5_next_version_pure (s : session) (n : string) (Hwf : ledger_wf s n) :
  get_next_version_number s n = (Some (current_version s n + 1)%Z, s) /\
  (never_recorded s n -> fst (get_next_version_number s n) = Some 1%Z) /\
  fst (get_next_version_number (snd (get_next_version_number s n)) n)
    = fst (get_next_version_number s n).
Proof.
  assert (E : get_next_version_number s n = (Some (current_version s n + 1)%Z, s)).
  { unfold get_next_version_number, current_version, sget.
    destruct Hwf as [Hn | (d & Hd & [Hk | (z & Hk)])].
    - rewrite Hn. reflexivity.
    - rewrite Hd, Hk. reflexivity.
    - rewrite Hd, Hk. reflexivity. }
  split; [exact E|]. rewrite E. cbn [fst snd]. split; [|rewrite E; reflexivity].
  intros [Hn | (d & Hd & Hk)]; unfold current_version.
  - rewrite Hn. reflexivity.
  - rewrite Hd, Hk. reflexivity.
Qed.

Definition ledger_example : session := {[ "asset_versions" := PDict [("promo", PInt 3%Z)] ]}.

Lemma C5_next_version_pure_witness :
  ledger_wf ledger_example "promo" /\
  get_next_version_number ledger_example "promo" = (Some 4%Z, ledger_example).
Proof.
  assert (H : ledger_wf ledger_example "promo").
  { right. exists [("promo", PInt 3%Z)]. split; [reflexivity|]. right. exists 3%Z. reflexivity. }
  split; [exact H|].
  destruct (C5_next_version_pure ledger_example "promo" H) as [E _].
  rewrite E. reflexivity.
Defined.

Lemma dget_dset (d : list (string * pyval)) (k : string) (v : pyval) :
  dget (dset d k v) k = Some v.
Proof.
  induction d as [|[k' v'] d IH]; cbn.
  - rewrite String.eqb_refl. reflexivity.
  - destruct (String.eqb k k') eqn:E; cbn; rewrite ?E, ?String.eqb_refl; [reflexivity | exact IH].
Qed.

(** Peel one character off [n ++ suffix = literal]. *)
Ltac peel_key H n :=
  destruct n as [|? n]; cbn in H; [discriminate H | try discriminate H; injection H as _ H].

Lemma history_key_ne_versions (n : string) : history_key n <> "asset_versions".
Proof. unfold history_key. intro H. repeat peel_key H n. Qed.

Lemma history_key_ne_filenames (n : string) : history_key n <> "asset_filenames".
Proof. unfold history_key. intro H. repeat peel_key H n. Qed.

(** What [update_asset_version] keeps right: the recorded version is the
    version of the last history entry. *)
(** [if k not in state: state[k] = x] *)
Lemma lookup_ensure (s : session) (k k' : string) (x : pyval) :
  (if decide (is_Some (s !! k)) then s else <[k := x]> s) !! k'
  = if decide (k = k') then Some (default x (s !! k)) else s !! k'.
Proof.
  case_decide as Hs; case_decide as Hk; subst.
  - destruct Hs as [y Hy]. rewrite Hy. reflexivity.
  - reflexivity.
  - rewrite lookup_insert_eq. destruct (s !! k') eqn:E; [exfalso; apply Hs; eexists; reflexivity|reflexivity].
  - rewrite lookup_insert_ne by exact Hk. reflexivity.
Qed.

Lemma nested_set_Some (s s' : session) (key k : string) (v : pyval)
  (H : nested_set s key k v = Some s') :
  exists d, s !! key = Some (PDict d) /\ s' = <[key := PDict (dset d k v)]> s.
Proof.
  unfold nested_set in H. destruct (s !! key) as [[]|]; try discriminate.
  injection H as <-. eexists; split; reflexivity.
Qed.

Lemma update_asset_version_Some (s s' : session) (a fn : string) (v : Z)
  (H : update_asset_version s a v fn = (s', true)) :
  exists dv df l,
    sget s "asset_versions" (PDict []) = PDict dv /\
    sget s "asset_filenames" (PDict []) = PDict df /\
    sget s (history_key a) (PList []) = PList l /\
    s' = <[history_key a := PList (app l [history_entry v fn])]>
           (<["asset_filenames" := PDict (dset df a (PStr fn))]>
              (<["asset_versions" := PDict (dset dv a (PInt v))]> s)).
Proof.
  pose proof (history_key_ne_versions a) as Hhk1.
  pose proof (history_key_ne_filenames a) as Hhk2.
  unfold update_asset_version in H. cbv zeta in H.
  destruct (nested_set _ "asset_versions" a _) as [st3|] eqn:E3; [|discriminate].
  destruct (nested_set st3 "asset_filenames" a _) as [st4|] eqn:E4; [|discriminate].
  apply nested_set_Some in E3 as (dv & Hdv & ->).
  apply nested_set_Some in E4 as (df & Hdf & ->).
  rewrite lookup_ensure in H. rewrite decide_True in H by reflexivity.
  rewrite !lookup_insert_ne in H by (apply not_eq_sym; assumption).
  rewrite !lookup_ensure in H. rewrite !decide_False in H by (apply not_eq_sym; assumption).
  rewrite lookup_ensure, decide_False in Hdv by discriminate.
  rewrite lookup_ensure, decide_True in Hdv by reflexivity.
  rewrite lookup_insert_ne in Hdf by discriminate.
  rewrite lookup_ensure, decide_True in Hdf by reflexivity.
  rewrite lookup_ensure, decide_False in Hdf by discriminate.
  unfold sget.
  destruct (default (PList []) (s !! history_key a)) eqn:Hl; try discriminate.
  injection H as <-.
  exists dv, df, l.
  split; [destruct (s !! "asset_versions"); injection Hdv as ->; reflexivity|].
  split; [destruct (s !! "asset_filenames"); injection Hdf as ->; reflexivity|].
  split; [destruct (s !! history_key a); exact Hl|].
  apply map_eq. intros k.
  repeat first [rewrite lookup_insert | rewrite lookup_ensure | case_decide; subst].
  all: try congruence.
  all: destruct (s !! history_key a); cbn in *; congruence.
Qed.

Lemma update_asset_version_last (s s' : session) (n fn : string) (v : Z)
  (H : update_asset_version s n v fn = (s', true)) :
  current_version s' n = v /\
  exists l, s' !! history_key n = Some (PList (app l [history_entry v fn])).
Proof.
  pose proof (history_key_ne_versions n) as Hhk1.
  pose proof (history_key_ne_filenames n) as Hhk2.
  destruct (update_asset_version_Some s s' n fn v H) as (dv & df & l & _ & _ & _ & ->).
  split; [unfold current_version;
          repeat (rewrite lookup_insert_ne by first [exact Hhk1 | discriminate]);
          rewrite lookup_insert_eq; rewrite dget_dset; reflexivity
         | eexists; apply lookup_insert_eq].
Qed.

End LedgerFacts.

(** ** Image tools *)
Module ToolFacts.
Import Ledger Post.

Definition image_png : part := mkPart "image/png" "iVBORw0KGgo".

(** The external calls all succeed: the model returns a text chunk and then
    one image chunk. *)
Definition env_ok : model_env :=
  mkEnv true (fun _ => Some "A bold red poster") (fun _ => Some [ChPart None; ChPart (Some image_png)]) false.

Definition env_rewrite_raises : model_env :=
  mkEnv true (fun _ => None) (fun _ => Some [ChPart (Some image_png)]) false.

Definition ctx0 : ctx := mkCtx ∅ ∅ [].

Definition gi_promo : GenerateImageInput := mkGen "a red poster" (Some "1:1") None "promo" None.

Definition is_success (o : outcome) : bool :=
  match o with
  | Returned s => String.prefix "Image generated successfully!" s
                  || String.prefix "Image edited successfully!" s
  | Raised _ => false
  end.

Lemma load_after_save (c : ctx) (fn : string) (p : part) :
  load_artifact (snd (save_artifact c fn p)) fn = Some p.
Proof.
  unfold load_artifact, save_artifact. cbn. rewrite lookup_insert_eq. apply last_snoc.
Qed.

(** C4: two successful [generate_image] calls for a new asset.  The ledger
    records the artifact service's revision index of the file it just
    wrote (0 for a new file) instead of the version it allocated, so after
    the first call [current_version] is 0 with history [v0], and after the
    second it is 1 with history [v0; v1], both entries naming
    [promo_v1.png]. *)
Theorem C4_ledger_records_store_revision :
  let '(o1, c1) := generate_image env_ok ctx0 gi_promo in
  let '(o2, c2) := generate_image env_ok c1 gi_promo in
  is_success o1 = true /\ is_success o2 = true /\
  current_version (st c1) "promo" = 0%Z /\
  st c1 !! history_key "promo" = Some (PList [history_entry 0 "promo_v1.png"]) /\
  current_version (st c2) "promo" = 1%Z /\
  st c2 !! history_key "promo"
    = Some (PList [history_entry 0 "promo_v1.png"; history_entry 1 "promo_v1.png"]).
Proof. vm_compute. repeat split. Qed.

(** C6: when the prompt-rewriting model call raises, [generate_image]
    returns the empty string. *)
Theorem C6_model_error_returns_empty :
  generate_image env_rewrite_raises ctx0 gi_promo = (Returned "", ctx0).
Proof. reflexivity. Qed.

(** The no-image outcome leaves the session state (ledger and
    [last_generated_image]) unchanged. *)
Lemma generate_image_no_image_keeps_state (env : model_env) (c c' : ctx)
  (i : GenerateImageInput)
  (H : generate_image env c i = (Returned "No image was generated", c')) :
  st c' = st c.
Proof.
  unfold generate_image, save_artifact in H.
  repeat case_match; simplify_eq/=; reflexivity.
Qed.

(** A tool run either leaves the session state untouched, or
    [save_artifact] succeeded and the state change is exactly the ledger
    record of the saved file: [update_asset_version] on the state before the
    call (complete, followed by the [last_generated_image] and
    [current_asset_name] writes, or stopped by the [TypeError] of a nested
    write, keeping the writes made before it), the saved artifact being the
    latest revision of that file. *)
Definition saved_then_recorded (env : model_env) (c c' : ctx) : Prop :=
  st c' = st c \/
  (env_save_fails env = false /\
   exists a fn p v s3 ok,
     update_asset_version (st c) a v fn = (s3, ok) /\
     load_artifact c' fn = Some p /\
     st c' = if ok then <["current_asset_name" := PStr a]> (<["last_generated_image" := PStr fn]> s3)
             else s3).

Ltac saved_then_recorded_case :=
  right; split; [reflexivity|];
  eexists _, _, _, _, _, _; split; [eassumption|];
  split; [unfold load_artifact; cbn; rewrite lookup_insert_eq; apply last_snoc | reflexivity].

Lemma generate_image_saved_then_recorded (env : model_env) (c : ctx) (i : GenerateImageInput) :
  saved_then_recorded env c (snd (generate_image env c i)).
Proof.
  unfold saved_then_recorded, generate_image, save_artifact.
  repeat case_match; simplify_eq/=; auto; saved_then_recorded_case.
Qed.

Lemma edit_image_saved_then_recorded (env : model_env) (c : ctx) (i : EditImageInput) :
  saved_then_recorded env c (snd (edit_image env c i)).
Proof.
  unfold saved_then_recorded, edit_image, save_artifact.
  repeat case_match; simplify_eq/=; auto; saved_then_recorded_case.
Qed.

(** The same external calls with an artifact store that does not fail. *)
Definition with_working_store (env : model_env) : model_env :=
  mkEnv (env_api_key env) (env_rewrite env) (env_stream env) false.

(** When the store write raises, nothing of the session or the store
    changes, and whenever the call reaches the write (with a working store
    it would have written an artifact) the failure is reported. *)
Lemma generate_image_save_fails (env : model_env) (c : ctx) (i : GenerateImageInput)
  (Hfail : env_save_fails env = true) :
  st (snd (generate_image env c i)) = st c /\ arts (snd (generate_image env c i)) = arts c /\
  (arts (snd (generate_image (with_working_store env) c i)) <> arts c ->
   fst (generate_image env c i) = Returned (save_error store_error)).
Proof.
  unfold generate_image, with_working_store, save_artifact. cbn [env_api_key env_rewrite env_stream env_save_fails].
  rewrite Hfail.
  repeat case_match; simplify_eq/=; repeat split; auto; intros Hne; exfalso; apply Hne; reflexivity.
Qed.

Lemma edit_image_save_fails (env : model_env) (c : ctx) (i : EditImageInput)
  (Hfail : env_save_fails env = true) :
  st (snd (edit_image env c i)) = st c /\ arts (snd (edit_image env c i)) = arts c /\
  (arts (snd (edit_image (with_working_store env) c i)) <> arts c ->
   fst (edit_image env c i) = Returned (edit_save_error store_error)).
Proof.
  unfold edit_image, with_working_store, save_artifact. cbn [env_api_key env_rewrite env_stream env_save_fails].
  rewrite Hfail.
  repeat case_match; simplify_eq/=; repeat split; auto; intros Hne; exfalso; apply Hne; reflexivity.
Qed.

Definition env_save_raises : model_env :=
  mkEnv true (fun _ => Some "A bold red poster") (fun _ => Some [ChPart (Some image_png)]) true.

(** The failed write is reported as such. *)
Example generate_image_reports_save_error :
  generate_image env_save_raises ctx0 gi_promo
    = (Returned (save_error store_error), log_call ctx0 [CText "A bold red poster"]).
Proof. reflexivity. Qed.

(** C7: [generate_image] and [edit_image] change the session state (where
    [update_asset_version] records the version) only after [save_artifact]
    succeeded, the change being the ledger record of the saved file; when
    the write fails, neither the session state (so no version counter) nor
    the artifact store changes, and a call that reaches the write reports
    the save error. *)
Theorem C7_record_only_after_save (env : model_env) (c : ctx)
    (gi : GenerateImageInput) (ei : EditImageInput) :
  saved_then_recorded env c (snd (generate_image env c gi)) /\
  saved_then_recorded env c (snd (edit_image env c ei)) /\
  (env_save_fails env = true ->
   st (snd (generate_image env c gi)) = st c /\ arts (snd (generate_image env c gi)) = arts c /\
   (arts (snd (generate_image (with_working_store env) c gi)) <> arts c ->
    fst (generate_image env c gi) = Returned (save_error store_error)) /\
   st (snd (edit_image env c ei)) = st c /\ arts (snd (edit_image env c ei)) = arts c /\
   (arts (snd (edit_image (with_working_store env) c ei)) <> arts c ->
    fst (edit_image env c ei) = Returned (edit_save_error store_error))).
Proof.
  split; [apply generate_image_saved_then_recorded|].
  split; [apply edit_image_saved_then_recorded|].
  intros Hfail.
  destruct (generate_image_save_fails env c gi Hfail) as (G1 & G2 & G3).
  destruct (edit_image_save_fails env c ei Hfail) as (E1 & E2 & E3).
  repeat split; assumption.
Qed.

End ToolFacts.

(** ** Reference images *)
Module ReferenceFacts.
Import Ledger Upload.

(** C9: after two uploads (each the first image part of the latest
    message, both saves succeeding, starting with no [reference_images]),
    ["latest"] resolves to the second image and the first image's filename
    to the first image; [generate_image] and [edit_image] use this
    resolution. *)
Theorem C9_latest_is_second_upload (c : ctx) (m1 m2 : list (list content_part))
    (msg1 msg2 : list content_part) (p1 p2 : part)
    (Hfresh : st c !! "reference_images" = None)
    (H1 : last m1 = Some msg1) (Hp1 : find_image_part msg1 = Some p1)
    (H2 : last m2 = Some msg2) (Hp2 : find_image_part msg2 = Some p2) :
  exists c1 c2,
    process_reference_images_callback false c m1 = Some c1 /\
    process_reference_images_callback false c1 m2 = Some c2 /\
    Post.reference_image_part c2 (Some "latest") = Some p2 /\
    Post.reference_image_part c2 (Some "reference_image_v1.png") = Some p1.
Proof.
  eexists _, _. split.
  { unfold process_reference_images_callback. rewrite H1, Hp1.
    unfold sget. rewrite Hfresh. cbn. rewrite Hfresh. cbn.
    rewrite decide_False by (intros [? E]; discriminate E).
    unfold nested_set. rewrite lookup_insert_eq. reflexivity. }
  split.
  { unfold process_reference_images_callback. rewrite H2, Hp2.
    unfold sget, set_st. cbn [st arts calls].
    rewrite lookup_insert_ne by discriminate. rewrite lookup_insert_eq. cbn.
    rewrite lookup_insert_ne by discriminate. rewrite lookup_insert_eq.
    rewrite decide_True by (eexists; reflexivity).
    unfold nested_set. rewrite lookup_insert_ne by discriminate. rewrite lookup_insert_eq.
    reflexivity. }
  change (reference_filename_for 1) with "reference_image_v1.png".
  change (reference_filename_for 2) with "reference_image_v2.png".
  unfold Post.reference_image_part, Post.reference_filename, Post.load_reference_image,
    Post.get_latest_reference_image_filename, load_artifact, sget. cbn.
  rewrite lookup_insert_eq. cbn.
  split.
  - rewrite lookup_insert_eq. apply last_snoc.
  - rewrite lookup_insert_ne by discriminate. rewrite lookup_insert_eq. apply last_snoc.
Qed.

Definition image_a : part := mkPart "image/jpeg" "first-upload".
Definition image_b : part := mkPart "image/png" "second-upload".
Definition upload_msg_a : list content_part := [CText "like this dress"; CInline image_a].
Definition upload_msg_b : list content_part := [CText "and this colour"; CInline image_b].

Lemma C9_latest_is_second_upload_witness :
  exists c1 c2,
    process_reference_images_callback false ToolFacts.ctx0 [upload_msg_a] = Some c1 /\
    process_reference_images_callback false c1 [upload_msg_a; upload_msg_b] = Some c2 /\
    Post.reference_image_part c2 (Some "latest") = Some image_b /\
    Post.reference_image_part c2 (Some "reference_image_v1.png") = Some image_a.
Proof.
  apply (C9_latest_is_second_upload ToolFacts.ctx0 [upload_msg_a] [upload_msg_a; upload_msg_b]
           upload_msg_a upload_msg_b image_a image_b); reflexivity.
Defined.

End ReferenceFacts.

(** ** Wardrobe variant *)
Module WardrobeFacts.
Import Ledger Post Wardrobe.

(** C10: with [reference_image_filename] unset ([None] or empty), the
    wardrobe [generate_image] takes the session's [latest_reference_image];
    when that file loads, the request sent to the image model is the
    faithful-reproduction prompt followed by that image. *)
Theorem C10_unset_reference_uses_latest (env : model_env) (c : ctx)
    (gi : GenerateImageInput) (fn : string) (p : part) (v : Z)
    (Hkey : env_api_key env = true)
    (Hunset : opt_truthy (gi_reference_image_filename gi) = None)
    (Hlatest : sget (st c) "latest_reference_image" PNone = PStr fn)
    (Hfn : fn <> "")
    (Hload : load_artifact c fn = Some p)
    (Hver : fst (get_next_version_number (st c) (gi_asset_name gi)) = Some v) :
  calls (snd (Wardrobe.generate_image env c gi))
    = app (calls c) [[CText (faithful_prompt gi); CInline p]].
Proof.
  assert (Href : Wardrobe.reference_image_part c (gi_reference_image_filename gi) = Some p).
  { unfold Wardrobe.reference_image_part, Wardrobe.reference_filename.
    rewrite Hunset, Hlatest. cbn.
    apply String.eqb_neq in Hfn. rewrite Hfn. exact Hload. }
  unfold Wardrobe.generate_image. rewrite Hkey. cbn [negb].
  rewrite Href. rewrite Hver. unfold save_artifact.
  repeat case_match; simplify_eq/=; reflexivity.
Qed.

Definition c_with_upload : ctx :=
  mkCtx {[ "latest_reference_image" := PStr "reference_abcd1234_1760000000.jpg" ]}
        {[ "reference_abcd1234_1760000000.jpg" := [ReferenceFacts.image_a] ]} [].

Definition gi_gown : GenerateImageInput := mkGen "evening gown" (Some "3:4") None "gown" None.

Lemma C10_unset_reference_uses_latest_witness :
  calls (snd (Wardrobe.generate_image ToolFacts.env_ok c_with_upload gi_gown))
    = [[CText (faithful_prompt gi_gown); CInline ReferenceFacts.image_a]].
Proof.
  apply (C10_unset_reference_uses_latest ToolFacts.env_ok c_with_upload gi_gown
           "reference_abcd1234_1760000000.jpg" ReferenceFacts.image_a 1%Z);
    try reflexivity; discriminate.
Defined.

End WardrobeFacts.

(** ** Deep think loop *)
Module LoopFacts.
Import Ledger DeepThink.

(** [loop_decision] is neither a [LoopDecision] nor a dict holding
    [should_continue] (an absent key reads as [None]). *)
Definition malformed_decision (v : pyval) : Prop :=
  match v with
  | PDecision _ _ => False
  | PDict d => dget d "should_continue" = None
  | _ => True
  end.

(** C8: on a missing or malformed [loop_decision] the termination check
    continues the loop, unless the counter is at the cap, which stops it. *)
Theorem C8_malformed_decision_continues (s : session)
    (Hmal : malformed_decision (sget s "loop_decision" PNone)) :
  (at_cap (sget s "deep_think_iteration" (PInt 0)) = Some false ->
   termination s = Some (true, s)) /\
  (at_cap (sget s "deep_think_iteration" (PInt 0)) = Some true ->
   termination s = Some (false, reset_delta s)).
Proof.
  unfold termination.
  destruct (sget s "loop_decision" PNone) eqn:Hd; cbn in Hmal |- *;
    try contradiction.
  all: try match type of Hmal with dget _ _ = None => rewrite Hmal; cbn end.
  all: split; intros Hc; rewrite Hc; reflexivity.
Qed.

Definition session_bad_decision : session :=
  {[ "loop_decision" := PStr "continue?"; "deep_think_iteration" := PInt 2%Z ]}.

Lemma C8_malformed_decision_continues_witness :
  termination session_bad_decision = Some (true, session_bad_decision).
Proof.
  apply (C8_malformed_decision_continues session_bad_decision); [exact I | reflexivity].
Defined.

(** Every termination check whose counter is at the cap stops the loop. *)
Lemma pass_cap_stops (ag : stages) (k : nat) (s s' : session) (evs : list event) (e : bool)
  (H : pass ag k s = Some (s', evs, e)) :
  forall counter b, In (ECheck counter b) evs -> at_cap counter = Some true -> b = false.
Proof.
  unfold pass in H. repeat case_match; simplify_eq.
  intros counter cont Hin Hcap.
  destruct Hin as [Hin | [Hin | []]]; [discriminate|]. injection Hin as <- <-.
  match goal with Ht : termination _ = Some _ |- _ => unfold termination in Ht end.
  repeat case_match; simplify_eq; reflexivity.
Qed.

Lemma loop_from_cap_stops (ag : stages) (fuel k : nat) (s : session) (evs : list event)
  (Hevs : forall counter b, In (ECheck counter b) evs -> at_cap counter = Some true -> b = false) :
  forall counter b, In (ECheck counter b) (r_events (loop_from ag fuel k s evs)) ->
                    at_cap counter = Some true -> b = false.
Proof.
  revert k s evs Hevs. induction fuel as [|fuel IH]; intros k s evs Hevs; cbn; [exact Hevs|].
  destruct (pass ag k s) as [[[s' evs'] [|]]|] eqn:Hp; cbn; [| |exact Hevs].
  - intros counter b Hin. apply in_app_or in Hin as [Hin|Hin]; [now apply Hevs|].
    now apply (pass_cap_stops ag k s s' evs' true Hp).
  - apply IH. intros counter b Hin. apply in_app_or in Hin as [Hin|Hin]; [now apply Hevs|].
    now apply (pass_cap_stops ag k s s' evs' false Hp).
Qed.

Lemma loop_from_passes (ag : stages) (fuel k : nat) (s : session) (evs : list event) :
  r_passes (loop_from ag fuel k s evs) <= k + fuel.
Proof.
  revert k s evs. induction fuel as [|fuel IH]; intros k s evs; cbn; [lia|].
  destruct (pass ag k s) as [[[s' evs'] [|]]|]; cbn; [lia| |lia].
  specialize (IH (S k) s' (app evs evs')). lia.
Qed.

(** What the loop does enforce: at most [max_iterations] = 5 passes, and a
    check at the counter cap always stops. *)
Lemma deep_think_loop_bounds (ag : stages) (s : session) :
  r_passes (deep_think_loop ag s) <= 5 /\
  forall counter b, In (ECheck counter b) (r_events (deep_think_loop ag s)) ->
                    at_cap counter = Some true -> b = false.
Proof.
  split.
  - apply (loop_from_passes ag 5 0 s []).
  - apply loop_from_cap_stops. intros ? ? [].
Qed.

Lemma sget_insert_ne (s : session) (k key : string) (v d : pyval) (Hk : k <> key) :
  sget (<[k := v]> s) key d = sget s key d.
Proof. unfold sget. rewrite lookup_insert_ne by exact Hk. reflexivity. Qed.

Lemma sget_if_insert_ne (b : bool) (s : session) (k key : string) (v d : pyval) (Hk : k <> key) :
  sget (if b then s else <[k := v]> s) key d = sget s key d.
Proof. destruct b; [reflexivity|]. apply sget_insert_ne, Hk. Qed.

(** The preparation stage never increments [deep_think_iteration]: it keeps
    a truthy value and sets a falsy one to 0. *)
Lemma preparation_keeps_counter (s s' : session) (H : preparation s = Some s') :
  sget s' "deep_think_iteration" PNone
    = if truthy (sget s "deep_think_iteration" PNone) then sget s "deep_think_iteration" PNone
      else PInt 0.
Proof.
  unfold preparation in H. cbv zeta in H.
  destruct (py_add _ 1) as [z|]; [|discriminate].
  assert (Hs : forall s0 : session,
             (if Z.gtb z 1 then Some s0 else Some (<["content_review" := PStr ""]> s0)) = Some s' ->
             sget s' "deep_think_iteration" PNone = sget s0 "deep_think_iteration" PNone).
  { intros s0 H0. destruct (Z.gtb z 1); injection H0 as <-; [reflexivity|].
    apply sget_insert_ne. discriminate. }
  apply Hs in H. rewrite H.
  rewrite !sget_if_insert_ne by discriminate.
  destruct (truthy (sget s "deep_think_iteration" PNone)); [reflexivity|].
  unfold sget. rewrite lookup_insert_eq. reflexivity.
Qed.

(** Language-model stages whose review keeps finding problems and whose
    verdict is always to continue. *)
Definition always_continue : stages :=
  mkStages (fun _ => "red poster with the text SALE")
           (fun k m s => <["last_generated_image" := PStr "marketing_post_v1.png"]> s)
           (fun _ => PDict [("adheres_to_request", PBool false); ("specific_issues", PList [PStr "text unreadable"])])
           (fun _ => PDict [("should_continue", PBool true); ("reason", PStr "text unreadable")]).

Definition five_continuing_passes : list event :=
  [EDispatch EDIT (PInt 0); ECheck (PInt 0) true;
   EDispatch EDIT (PInt 0); ECheck (PInt 0) true;
   EDispatch EDIT (PInt 0); ECheck (PInt 0) true;
   EDispatch EDIT (PInt 0); ECheck (PInt 0) true;
   EDispatch EDIT (PInt 0); ECheck (PInt 0) true].

(** C1: with a verdict that always says continue, the loop runs 5 passes
    (more than the 4-iteration cap) and ends by exhausting [max_iterations]
    without escalating: every termination check reads
    [deep_think_iteration = 0], so the cap override never fires. *)
Theorem C1_cap_never_reached :
  r_passes (deep_think_loop always_continue ∅) = 5 /\
  r_end (deep_think_loop always_continue ∅) = MaxIterations /\
  r_events (deep_think_loop always_continue ∅) = five_continuing_passes.
Proof. vm_compute. repeat split. Qed.

(** C3: on the first pass of a fresh loop the generation stage reads
    [deep_think_iteration = 0] and so calls [edit_image], not
    [generate_image]; so does every later pass. *)
Theorem C3_first_pass_dispatches_edit :
  head (r_events (deep_think_loop always_continue ∅)) = Some (EDispatch EDIT (PInt 0)) /\
  Forall (fun e => match e with EDispatch m v => m = EDIT /\ v = PInt 0 | ECheck _ _ => True end)
         (r_events (deep_think_loop always_continue ∅)).
Proof. vm_compute. split; [reflexivity|]. repeat constructor. Qed.

(** Stages that stop after the first pass. *)
Definition stop_at_once : stages :=
  mkStages (fun _ => "red poster")
           (fun k m s => <["last_generated_image" := PStr "marketing_post_v1.png"]> s)
           (fun _ => PDict [("adheres_to_request", PBool true)])
           (fun _ => PDict [("should_continue", PBool false); ("reason", PStr "good enough")]).

(** After the loop stops, the prompt captured by [PromptCaptureAgent]
    under [original_prompt] is still there: the termination agent's state
    delta does not name it. *)
Lemma captured_prompt_survives :
  r_end (deep_think_loop stop_at_once ∅) = Escalated /\
  r_state (deep_think_loop stop_at_once ∅) !! "original_prompt" = Some (PStr "red poster").
Proof. vm_compute. split; reflexivity. Qed.

Lemma pass_escalates_reset (ag : stages) (k : nat) (s s' : session) (evs : list event)
  (H : pass ag k s = Some (s', evs, true)) : exists s0, s' = reset_delta s0.
Proof.
  unfold pass in H. repeat case_match; simplify_eq.
  match goal with Ht : termination _ = Some _ |- _ => unfold termination in Ht end.
  repeat case_match; simplify_eq; eauto.
Qed.

Lemma loop_from_escalated_reset (ag : stages) (fuel k : nat) (s : session) (evs : list event)
  (H : r_end (loop_from ag fuel k s evs) = Escalated) :
  exists s0, r_state (loop_from ag fuel k s evs) = reset_delta s0.
Proof.
  revert k s evs H. induction fuel as [|fuel IH]; intros k s evs H; cbn in *; [discriminate|].
  destruct (pass ag k s) as [[[s' evs'] [|]]|] eqn:Hp; cbn in *; [|now apply IH|discriminate].
  now apply (pass_escalates_reset ag k s s' evs').
Qed.

(** When the loop stops through the termination agent, the
    session has [deep_think_mode = False], [deep_think_iteration = 0] and
    [original_deep_think_prompt], [content_review], [loop_decision] set to
    [None]. *)
Lemma termination_resets (ag : stages) (s : session)
    (H : r_end (deep_think_loop ag s) = Escalated) :
  let s' := r_state (deep_think_loop ag s) in
  s' !! "deep_think_mode" = Some (PBool false) /\
  s' !! "deep_think_iteration" = Some (PInt 0) /\
  s' !! "original_deep_think_prompt" = Some PNone /\
  s' !! "content_review" = Some PNone /\
  s' !! "loop_decision" = Some PNone.
Proof.
  destruct (loop_from_escalated_reset ag max_iterations 0 s [] H) as [s0 E].
  cbv zeta. unfold deep_think_loop. rewrite E. unfold reset_delta.
  repeat split; repeat (rewrite lookup_insert_ne by discriminate); apply lookup_insert_eq.
Qed.

(** A session in deep-think mode with a captured request. *)
Definition deep_think_session : session :=
  <["deep_think_mode" := PBool true]>
    (<["original_deep_think_prompt" := PStr "red poster with the text SALE"]> ∅).

(** C2: when the loop is stopped by the iteration bound rather than by a
    stop verdict (here a verdict that always says continue, so the loop
    runs out its 5 passes), the termination agent's reset never runs:
    [deep_think_mode] is still true, [original_deep_think_prompt] still
    holds the request, and [content_review] and [loop_decision] still hold
    the last pass's review and verdict. *)
Theorem C2_bound_stop_keeps_state :
  let r := deep_think_loop always_continue deep_think_session in
  r_end r = MaxIterations /\
  r_state r !! "deep_think_mode" = Some (PBool true) /\
  r_state r !! "original_deep_think_prompt" = Some (PStr "red poster with the text SALE") /\
  r_state r !! "content_review" = Some (review always_continue 4) /\
  r_state r !! "loop_decision" = Some (decide_loop always_continue 4).
Proof. vm_compute. repeat split. Qed.

End LoopFacts.

(** * Further properties of the modelled code *)

Module StringFacts.
Import Ledger.

Lemma append_cons (c : ascii) (a b : string) : String c a ++ b = String c (a ++ b).
Proof. reflexivity. Qed.

Lemma string_length_app (a b : string) :
  String.length (a ++ b) = String.length a + String.length b.
Proof. induction a as [|c a IH]; [reflexivity|]. rewrite append_cons. cbn. f_equal. exact IH. Qed.

Lemma append_cancel_l (p a b : string) : p ++ a = p ++ b -> a = b.
Proof. induction p as [|c p IH]; [exact id|]. rewrite !append_cons. intros H. injection H as H. exact (IH H). Qed.

Lemma append_cancel_r (a b s : string) : a ++ s = b ++ s -> a = b.
Proof.
  revert b. induction a as [|c a IH]; intros [|c' b] H; rewrite ?append_cons in H; cbn in H.
  - reflexivity.
  - apply (f_equal String.length) in H. cbn in H. rewrite !string_length_app in H. cbn in H. lia.
  - apply (f_equal String.length) in H. cbn in H. rewrite !string_length_app in H. cbn in H. lia.
  - injection H as -> H. f_equal. exact (IH b H).
Qed.

(** Reading a decimal numeral back, most significant digit first. *)
Fixpoint digits_val (v : nat) (s : string) : nat :=
  match s with
  | EmptyString => v
  | String c s' => digits_val (v * 10 + (nat_of_ascii c - 48)) s'
  end.

Lemma digit_char_val (d : nat) : d < 10 -> nat_of_ascii (digit_char d) - 48 = d.
Proof. intros Hd. do 10 (destruct d as [|d]; [reflexivity|]). lia. Qed.

Lemma nat_to_digits_val (fuel n : nat) (acc : string) :
  n < fuel -> digits_val 0 (nat_to_digits_aux fuel n acc) = digits_val n acc.
Proof.
  revert n acc. induction fuel as [|fuel IH]; intros n acc Hn; [lia|].
  cbn [nat_to_digits_aux].
  pose proof (Nat.mod_upper_bound n 10 ltac:(lia)) as Hm.
  destruct (Nat.ltb_spec n 10) as [Hlt|Hge].
  - cbn [digits_val]. rewrite digit_char_val by exact Hm.
    f_equal. rewrite Nat.mod_small by exact Hlt. lia.
  - rewrite IH by (pose proof (Nat.div_lt n 10 ltac:(lia) ltac:(lia)); lia).
    cbn [digits_val]. rewrite digit_char_val by exact Hm.
    f_equal. pose proof (Nat.div_mod_eq n 10). lia.
Qed.

Lemma Z_to_string_nat_inj (a b : nat) :
  Z_to_string (Z.of_nat a) = Z_to_string (Z.of_nat b) -> a = b.
Proof.
  unfold Z_to_string.
  replace (Z.of_nat a <? 0)%Z with false by (symmetry; apply Z.ltb_ge; lia).
  replace (Z.of_nat b <? 0)%Z with false by (symmetry; apply Z.ltb_ge; lia).
  rewrite !Nat2Z.id. intros H.
  apply (f_equal (digits_val 0)) in H.
  rewrite !nat_to_digits_val in H by lia. exact H.
Qed.

Lemma reference_filename_for_inj (a b : nat) :
  Upload.reference_filename_for a = Upload.reference_filename_for b -> a = b.
Proof.
  unfold Upload.reference_filename_for. intros H.
  apply append_cancel_l, append_cancel_r in H.
  exact (Z_to_string_nat_inj a b H).
Qed.

Lemma history_key_inj (a b : string) : history_key a = history_key b -> a = b.
Proof. unfold history_key. apply append_cancel_r. Qed.

End StringFacts.

Module LedgerExtra.
Import Ledger StringFacts.

Lemma dget_dset_ne (d : list (string * pyval)) (k k' : string) (v : pyval) (Hk : k' <> k) :
  dget (dset d k v) k' = dget d k'.
Proof.
  apply String.eqb_neq in Hk.
  induction d as [|[k0 v0] d IH]; cbn; [rewrite Hk; reflexivity|].
  destruct (String.eqb k k0) eqn:E; cbn.
  - apply String.eqb_eq in E. subst k0. rewrite Hk. reflexivity.
  - destruct (String.eqb k' k0); [reflexivity | exact IH].
Qed.

Lemma In_dset (d : list (string * pyval)) (k : string) (v : pyval) : In (k, v) (dset d k v).
Proof.
  induction d as [|[k0 v0] d IH]; cbn; [left; reflexivity|].
  destruct (String.eqb k k0) eqn:E; [apply String.eqb_eq in E; subst; left; reflexivity|].
  right. exact IH.
Qed.

Lemma dset_length (d : list (string * pyval)) (k : string) (v : pyval) : 0 < List.length (dset d k v).
Proof. destruct d as [|[k0 v0] d]; cbn; [lia|]. destruct (String.eqb k k0); cbn; lia. Qed.

Lemma asset_lines_In (s : session) (d : list (string * pyval)) (ls : list string)
  (H : Listing.asset_lines s d = Some ls) :
  forall k x, In (k, x) d -> exists l, Listing.asset_line s k x = Some l /\ In l ls.
Proof.
  revert ls H. induction d as [|[k0 x0] d IH]; intros ls H k x Hin; [destruct Hin|].
  cbn in H. destruct (Listing.asset_line s k0 x0) as [l0|] eqn:E0; [|discriminate].
  destruct (Listing.asset_lines s d) as [ls'|] eqn:E; [|discriminate]. injection H as <-.
  destruct Hin as [Hin|Hin].
  - injection Hin as -> ->. exists l0. split; [exact E0 | left; reflexivity].
  - destruct (IH ls' eq_refl k x Hin) as (l & Hl & Hl'). exists l. split; [exact Hl | right; exact Hl'].
Qed.

(** X1: after [update_asset_version] records [v] and [fn] for [a], the ledger
    holds [v] for [a] (so the next version is [v + 1]), [asset_filenames]
    holds [fn], and the asset's history is the previous one (or an empty one)
    followed by exactly one new entry. *)
Theorem update_asset_version_records (s s' : session) (a fn : string) (v : Z)
    (H : update_asset_version s a v fn = (s', true)) :
  (exists d, s' !! "asset_versions" = Some (PDict d) /\ dget d a = Some (PInt v)) /\
  fst (get_next_version_number s' a) = Some (v + 1)%Z /\
  (exists f, s' !! "asset_filenames" = Some (PDict f) /\ dget f a = Some (PStr fn)) /\
  (exists l, sget s (history_key a) (PList []) = PList l /\
             s' !! history_key a = Some (PList (app l [history_entry v fn]))).
Proof.
  pose proof (LedgerFacts.history_key_ne_versions a) as Hhk1.
  pose proof (LedgerFacts.history_key_ne_filenames a) as Hhk2.
  destruct (LedgerFacts.update_asset_version_Some s s' a fn v H) as (dv & df & l & Hv & Hf & Hl & ->).
  assert (Hav : <[history_key a:=PList (app l [history_entry v fn])]>
                  (<["asset_filenames":=PDict (dset df a (PStr fn))]>
                     (<["asset_versions":=PDict (dset dv a (PInt v))]> s)) !! "asset_versions"
                = Some (PDict (dset dv a (PInt v)))).
  { rewrite !lookup_insert_ne by (first [exact Hhk1 | discriminate]). apply lookup_insert_eq. }
  split; [eexists; split; [exact Hav | apply LedgerFacts.dget_dset]|].
  split.
  { unfold get_next_version_number, sget. rewrite Hav. cbn. rewrite LedgerFacts.dget_dset. reflexivity. }
  split.
  { eexists; split; [|apply LedgerFacts.dget_dset].
    rewrite lookup_insert_ne by exact Hhk2. apply lookup_insert_eq. }
  exists l. split; [exact Hl | apply lookup_insert_eq].
Qed.

Definition ledger_fresh : session := ∅.

Lemma update_asset_version_records_witness :
  exists s', update_asset_version ledger_fresh "promo" 0 "promo_v1.png" = (s', true) /\
    fst (get_next_version_number s' "promo") = Some 1%Z.
Proof.
  eexists. split; [reflexivity|].
  destruct (update_asset_version_records ledger_fresh _ "promo" "promo_v1.png" 0 eq_refl) as (_ & Hn & _).
  exact Hn.
Defined.

(** The file name [update_asset_version] last recorded for [b]. *)
Definition recorded_filename (s : session) (b : string) : option pyval :=
  match sget s "asset_filenames" (PDict []) with PDict f => dget f b | _ => None end.

(** X2: [update_asset_version] for [a] leaves every other asset alone: its
    next version, its recorded file name and its history are unchanged. *)
Theorem update_asset_version_other_assets (s s' : session) (a b fn : string) (v : Z)
    (H : update_asset_version s a v fn = (s', true)) (Hab : b <> a) :
  fst (get_next_version_number s' b) = fst (get_next_version_number s b) /\
  recorded_filename s' b = recorded_filename s b /\
  s' !! history_key b = s !! history_key b.
Proof.
  pose proof (LedgerFacts.history_key_ne_versions a) as Hhk1.
  pose proof (LedgerFacts.history_key_ne_filenames a) as Hhk2.
  pose proof (LedgerFacts.history_key_ne_versions b) as Hhb1.
  pose proof (LedgerFacts.history_key_ne_filenames b) as Hhb2.
  assert (Hab' : history_key a <> history_key b) by (intros E; apply Hab; symmetry; exact (history_key_inj a b E)).
  destruct (LedgerFacts.update_asset_version_Some s s' a fn v H) as (dv & df & l & Hv & Hf & Hl & ->).
  split; [|split].
  - unfold get_next_version_number. fold (sget s "asset_versions" (PDict [])). rewrite Hv.
    unfold sget at 1. rewrite !lookup_insert_ne by (first [exact Hhk1 | discriminate]).
    rewrite lookup_insert_eq. cbn. rewrite dget_dset_ne by exact Hab. reflexivity.
  - unfold recorded_filename. rewrite Hf.
    unfold sget at 1. rewrite lookup_insert_ne by exact Hhk2. rewrite lookup_insert_eq.
    rewrite dget_dset_ne by exact Hab. reflexivity.
  - rewrite lookup_insert_ne by exact Hab'.
    rewrite !lookup_insert_ne by (apply not_eq_sym; first [exact Hhb1 | exact Hhb2]).
    reflexivity.
Qed.

Definition ledger_two : session :=
  <["asset_versions" := PDict [("promo", PInt 1); ("banner", PInt 2)]]>
  (<["banner_history" := PList [history_entry 1 "banner_v1.png"; history_entry 2 "banner_v2.png"]]> ∅).

Lemma update_asset_version_other_assets_witness :
  exists s', update_asset_version ledger_two "promo" 2 "promo_v2.png" = (s', true) /\
    fst (get_next_version_number s' "banner") = Some 3%Z /\
    s' !! history_key "banner" = ledger_two !! history_key "banner".
Proof.
  eexists. split; [reflexivity|].
  destruct (update_asset_version_other_assets ledger_two _ "promo" "banner" "promo_v2.png" 2
              eq_refl ltac:(discriminate)) as (E1 & _ & E3).
  split; [rewrite E1; reflexivity | exact E3].
Defined.
(** X3: after [update_asset_version] records version [v] and file [fn] for
    [a], a [list_asset_versions] that does not raise lists [a] with one
    version more than its previous history held, latest [v] and [fn]. *)
Theorem asset_listing_after_record (s s' : session) (a fn out : string) (v : Z)
    (H : update_asset_version s a v fn = (s', true))
    (Hout : Listing.get_asset_versions_info s' = Some out) :
  exists l ls,
    sget s (history_key a) (PList []) = PList l /\
    out = Listing.join Listing.nl ("Current marketing assets:" :: ls) /\
    In ("  • " ++ a ++ ": " ++ Z_to_string (Z.of_nat (S (List.length l)))
        ++ " version(s), latest is v" ++ Z_to_string v ++ " (" ++ fn ++ ")") ls.
Proof.
  pose proof (LedgerFacts.history_key_ne_versions a) as Hhk1.
  pose proof (LedgerFacts.history_key_ne_filenames a) as Hhk2.
  destruct (LedgerFacts.update_asset_version_Some s s' a fn v H) as (dv & df & l & Hv & Hf & Hl & Hs').
  assert (Hav : sget s' "asset_versions" (PDict []) = PDict (dset dv a (PInt v))).
  { unfold sget. rewrite Hs'. rewrite !lookup_insert_ne by (first [exact Hhk1 | discriminate]).
    rewrite lookup_insert_eq. reflexivity. }
  unfold Listing.get_asset_versions_info in Hout. rewrite Hav in Hout.
  cbn [truthy] in Hout.
  pose proof (dset_length dv a (PInt v)) as Hlen.
  destruct (Nat.eqb (List.length (dset dv a (PInt v))) 0) eqn:E; [apply Nat.eqb_eq in E; lia|].
  cbn [negb] in Hout.
  destruct (Listing.asset_lines s' (dset dv a (PInt v))) as [ls|] eqn:Els; [|discriminate].
  injection Hout as <-.
  exists l, ls. split; [exact Hl|]. split; [reflexivity|].
  destruct (asset_lines_In s' _ ls Els a (PInt v) (In_dset dv a (PInt v))) as (line & Hline & Hin).
  enough (line = "  • " ++ a ++ ": " ++ Z_to_string (Z.of_nat (S (List.length l)))
        ++ " version(s), latest is v" ++ Z_to_string v ++ " (" ++ fn ++ ")") as <- by exact Hin.
  unfold Listing.asset_line in Hline.
  assert (Hh : sget s' (history_key a) (PList []) = PList (app l [history_entry v fn])).
  { unfold sget. rewrite Hs'. rewrite lookup_insert_eq. reflexivity. }
  assert (Hfn : sget s' "asset_filenames" (PDict []) = PDict (dset df a (PStr fn))).
  { unfold sget. rewrite Hs'. rewrite lookup_insert_ne by exact Hhk2. rewrite lookup_insert_eq. reflexivity. }
  rewrite Hh, Hfn in Hline. cbn [Listing.py_len] in Hline.
  rewrite LedgerFacts.dget_dset in Hline. cbn [default DeepThink.render] in Hline.
  rewrite length_app in Hline. cbn [List.length] in Hline.
  injection Hline as <-. rewrite Nat.add_1_r. reflexivity.
Qed.

Lemma asset_listing_after_record_witness :
  exists s' out ls,
    update_asset_version ledger_fresh "promo" 0 "promo_v1.png" = (s', true) /\
    Listing.get_asset_versions_info s' = Some out /\
    out = Listing.join Listing.nl ("Current marketing assets:" :: ls) /\
    In "  • promo: 1 version(s), latest is v0 (promo_v1.png)" ls.
Proof.
  destruct (asset_listing_after_record ledger_fresh _ "promo" "promo_v1.png" _ 0 eq_refl eq_refl)
    as (l & ls & Hl & Hout & Hin).
  cbv in Hl. injection Hl as <-.
  eexists _, _, ls. split; [reflexivity|]. split; [reflexivity|]. split; [exact Hout | exact Hin].
Defined.
End LedgerExtra.

Module ToolExtra.
Import Ledger Post StringFacts.

Lemma next_version_current (s : session) (a : string) (Hwf : ledger_wf s a) :
  fst (get_next_version_number s a) = Some (current_version s a + 1)%Z.
Proof.
  unfold get_next_version_number, current_version, sget.
  destruct Hwf as [Hn | (d & Hd & [Hk | (z & Hk)])].
  - rewrite Hn. reflexivity.
  - rewrite Hd, Hk. reflexivity.
  - rewrite Hd, Hk. reflexivity.
Qed.

(** X4: a successful [generate_image] for asset [a] saves the image under
    [a_v<n>.png], [n] being the recorded version plus one, points
    [last_generated_image] at that file, whose latest revision is the saved
    image, and sets [current_asset_name] to [a]; so a following [edit_image]
    given no asset name records its result under [a]. *)
Theorem generate_image_success_then_edit (env : model_env) (c c' : ctx)
    (gi : GenerateImageInput) (o : outcome)
    (H : generate_image env c gi = (o, c')) (Hs : ToolFacts.is_success o = true)
    (Hwf : ledger_wf (st c) (gi_asset_name gi)) :
  let a := gi_asset_name gi in
  let fn := create_versioned_filename a (current_version (st c) a + 1) "png" in
  st c' !! "last_generated_image" = Some (PStr fn) /\
  (exists p, load_artifact c' fn = Some p) /\
  st c' !! "current_asset_name" = Some (PStr a) /\
  (a <> "" -> forall ei, opt_truthy (ei_asset_name ei) = None -> edit_asset_name (st c') ei = a).
Proof.
  pose proof (next_version_current (st c) (gi_asset_name gi) Hwf) as Hv.
  cbv zeta. unfold generate_image in H. rewrite Hv in H.
  unfold save_artifact in H.
  repeat case_match; simplify_eq/=; try discriminate.
  split; [rewrite lookup_insert_ne by discriminate; apply lookup_insert_eq|].
  split; [eexists; unfold load_artifact; cbn; rewrite lookup_insert_eq; apply last_snoc|].
  split; [apply lookup_insert_eq|].
  intros Hne ei Hei. unfold edit_asset_name. rewrite Hei.
  unfold sget. rewrite lookup_insert_eq. cbn.
  apply String.eqb_neq in Hne. rewrite Hne. reflexivity.
Qed.

Lemma generate_image_success_then_edit_witness :
  exists o c',
    generate_image ToolFacts.env_ok ToolFacts.ctx0 ToolFacts.gi_promo = (o, c') /\
    ToolFacts.is_success o = true /\
    st c' !! "last_generated_image" = Some (PStr "promo_v1.png") /\
    edit_asset_name (st c') (mkEdit "promo_v1.png" "make it blue" None None) = "promo".
Proof.
  eexists _, _. split; [reflexivity|]. split; [reflexivity|].
  destruct (generate_image_success_then_edit ToolFacts.env_ok ToolFacts.ctx0 _ ToolFacts.gi_promo _
              eq_refl eq_refl (or_introl eq_refl)) as (H1 & _ & _ & H4).
  split; [exact H1|].
  apply H4; [discriminate | reflexivity].
Defined.

Lemma before_v_cons2 (c b : ascii) (x : string) :
  before_v (String c (String b x))
  = if Ascii.eqb c "_"%char && Ascii.eqb b "v"%char then Some ""
    else option_map (String c) (before_v (String b x)).
Proof. reflexivity. Qed.

Lemma before_v_app (a r : string) (Ha : before_v a = None) :
  before_v (a ++ "_v" ++ r) = Some a.
Proof.
  induction a as [|c a IH]; [reflexivity|].
  rewrite append_cons.
  destruct a as [|b a].
  - change ("" ++ "_v" ++ r) with (String "_" (String "v" r)).
    cbn. rewrite andb_false_r. reflexivity.
  - rewrite append_cons. rewrite !before_v_cons2 in Ha |- *.
    revert Ha. destruct (Ascii.eqb c "_"%char && Ascii.eqb b "v"%char); intros Ha; [discriminate|].
    destruct (before_v (String b a)) eqn:E; [discriminate|].
    rewrite <- append_cons, IH by reflexivity. reflexivity.
Qed.

(** X5: [edit_image] given no asset name, with no usable [current_asset_name]
    in the session, records its result under the asset name of a file named
    by [create_versioned_filename], provided that name contains no ["_v"]. *)
Theorem edit_asset_name_from_versioned_filename (s : session) (ei : EditImageInput)
    (a ext : string) (v : Z)
    (Hname : opt_truthy (ei_asset_name ei) = None)
    (Hcur : as_filename (sget s "current_asset_name" PNone) = None)
    (Ha : before_v a = None)
    (Hfile : ei_artifact_filename ei = create_versioned_filename a v ext) :
  edit_asset_name s ei = a.
Proof.
  unfold edit_asset_name. rewrite Hname, Hcur, Hfile.
  unfold create_versioned_filename. rewrite before_v_app by exact Ha. reflexivity.
Qed.

Lemma edit_asset_name_from_versioned_filename_witness :
  edit_asset_name ∅ (mkEdit "spring_sale_v3.png" "brighter" None None) = "spring_sale".
Proof.
  apply (edit_asset_name_from_versioned_filename ∅ _ "spring_sale" "png" 3);
    reflexivity.
Defined.

End ToolExtra.

Module UploadExtra.
Import Ledger Upload StringFacts.

(** X6: [process_reference_images_callback] looks only at the latest message
    of the request; when that message holds no image part it changes
    nothing, and when [save_artifact] raises it changes nothing either. *)
Theorem upload_callback_latest_message_only (save_fails : bool) (c : ctx)
    (earlier : list (list content_part)) (m : list content_part) :
  process_reference_images_callback save_fails c (app earlier [m])
    = process_reference_images_callback save_fails c [m] /\
  (find_image_part m = None -> process_reference_images_callback save_fails c (app earlier [m]) = Some c) /\
  (forall c', process_reference_images_callback true c (app earlier [m]) = Some c' -> c' = c).
Proof.
  unfold process_reference_images_callback. rewrite last_snoc. cbn [last].
  split; [reflexivity|]. split.
  - intros Hn. rewrite Hn. reflexivity.
  - intros c'. repeat case_match; congruence.
Qed.

Lemma upload_callback_latest_message_only_witness :
  process_reference_images_callback false ToolFacts.ctx0
    [ReferenceFacts.upload_msg_a; [CText "thanks"]] = Some ToolFacts.ctx0.
Proof.
  destruct (upload_callback_latest_message_only false ToolFacts.ctx0
              [ReferenceFacts.upload_msg_a] [CText "thanks"]) as (_ & H & _).
  exact (H eq_refl).
Defined.

End UploadExtra.

Module LoopExtra.
Import Ledger DeepThink.

(** The verdict of the loop-control stage on pass [k], as the termination
    check reads it. *)
Definition verdict (ag : stages) (k : nat) : bool :=
  truthy (fst (read_decision (decide_loop ag k))).

(** The generation stage does not write [deep_think_iteration]. *)
Definition keeps_counter (ag : stages) : Prop :=
  forall k m s, generate ag k m s !! "deep_think_iteration" = s !! "deep_think_iteration".

(** The generation stage leaves an image name in [last_generated_image]
    (the tool call it makes succeeds) and removes no key of the state. *)
Definition writes_image (ag : stages) : Prop :=
  (forall k m s, is_Some (generate ag k m s !! "last_generated_image")) /\
  (forall k m s key, is_Some (s !! key) -> is_Some (generate ag k m s !! key)).

Lemma lookup_if_insert_ne (b : bool) (s : session) (k k' : string) (v : pyval) (Hk : k <> k') :
  (if b then s else <[k := v]> s) !! k' = s !! k'.
Proof. destruct b; [reflexivity|]. apply lookup_insert_ne, Hk. Qed.

Lemma ensure_key (s : session) (k : string) (v : pyval) :
  is_Some ((if truthy (sget s k PNone) then s else <[k := v]> s) !! k).
Proof.
  destruct (truthy (sget s k PNone)) eqn:T.
  - unfold sget in T. destruct (s !! k); [eexists; reflexivity | discriminate].
  - rewrite lookup_insert_eq. eexists. reflexivity.
Qed.

Lemma has_keys_true (s : session) (ks : list string) :
  Forall (fun k => is_Some (s !! k)) ks -> has_keys s ks = true.
Proof.
  induction 1 as [|k ks Hk _ IH]; [reflexivity|].
  unfold has_keys in *. cbn [forallb]. rewrite bool_decide_eq_true_2 by exact Hk. exact IH.
Qed.

Lemma preparation_fresh (s : session)
  (H0 : truthy (sget s "deep_think_iteration" PNone) = false) :
  exists s1, preparation s = Some s1 /\ s1 !! "deep_think_iteration" = Some (PInt 0) /\
    is_Some (s1 !! "iteration_count") /\ is_Some (s1 !! "previous_feedback") /\
    s1 !! "content_review" = Some (PStr "").
Proof.
  unfold preparation. rewrite H0. cbv zeta.
  set (s3 := if truthy _ then _ else _).
  assert (E : s3 !! "deep_think_iteration" = Some (PInt 0)).
  { unfold s3. rewrite lookup_if_insert_ne by discriminate.
    rewrite lookup_if_insert_ne by discriminate. apply lookup_insert_eq. }
  unfold sget at 1. rewrite E. cbn.
  eexists. split; [reflexivity|].
  split; [rewrite lookup_insert_ne by discriminate; exact E|].
  split; [rewrite lookup_insert_ne by discriminate; unfold s3;
          rewrite lookup_if_insert_ne by discriminate; apply ensure_key|].
  split; [rewrite lookup_insert_ne by discriminate; unfold s3; apply ensure_key|].
  apply lookup_insert_eq.
Qed.


Lemma pass_fresh (ag : stages) (k : nat) (s : session) (Hkeep : keeps_counter ag)
  (Himg : writes_image ag)
  (H0 : truthy (sget s "deep_think_iteration" PNone) = false) :
  exists s' evs, pass ag k s = Some (s', evs, negb (verdict ag k)) /\
    (verdict ag k = true -> truthy (sget s' "deep_think_iteration" PNone) = false).
Proof.
  destruct Himg as [Hi Hk].
  destruct (preparation_fresh s H0) as (s1 & Hp & Hs1 & Hic & Hpf & Hcr).
  unfold pass. rewrite Hp. cbv zeta.
  set (s2 := <["original_prompt" := PStr (capture ag k)]> s1).
  assert (Hic2 : is_Some (s2 !! "iteration_count")) by (unfold s2; rewrite lookup_insert_ne by discriminate; exact Hic).
  assert (Hpf2 : is_Some (s2 !! "previous_feedback")) by (unfold s2; rewrite lookup_insert_ne by discriminate; exact Hpf).
  assert (Hop2 : is_Some (s2 !! "original_prompt")) by (unfold s2; rewrite lookup_insert_eq; eexists; reflexivity).
  rewrite (has_keys_true s2 ["deep_think_iteration"; "content_review"]).
  2:{ unfold s2. repeat apply Forall_cons_2; try apply Forall_nil_2; cbv beta.
      - rewrite lookup_insert_ne by discriminate. rewrite Hs1. eexists. reflexivity.
      - rewrite lookup_insert_ne by discriminate. rewrite Hcr. eexists. reflexivity. }
  cbn [negb].
  set (s3 := generate ag k (dispatch s2) s2).
  rewrite (has_keys_true s3 ["last_generated_image"; "original_prompt"; "iteration_count"; "previous_feedback"]).
  2:{ repeat apply Forall_cons_2; try apply Forall_nil_2; cbv beta; unfold s3.
      - apply Hi.
      - apply Hk. exact Hop2.
      - apply Hk. exact Hic2.
      - apply Hk. exact Hpf2. }
  rewrite (has_keys_true (<["content_review" := review ag k]> s3) ["iteration_count"; "content_review"]).
  2:{ repeat apply Forall_cons_2; try apply Forall_nil_2; cbv beta.
      - rewrite lookup_insert_ne by discriminate. apply Hk. exact Hic2.
      - rewrite lookup_insert_eq. eexists. reflexivity. }
  cbn [negb].
  set (s5 := <["loop_decision" := decide_loop ag k]> (<["content_review" := review ag k]> s3)).
  assert (E : s5 !! "deep_think_iteration" = Some (PInt 0)).
  { unfold s5, s3. rewrite !lookup_insert_ne by discriminate. rewrite Hkeep.
    unfold s2. rewrite lookup_insert_ne by discriminate. exact Hs1. }
  unfold termination.
  replace (sget s5 "loop_decision" PNone) with (decide_loop ag k)
    by (unfold sget, s5; rewrite lookup_insert_eq; reflexivity).
  replace (sget s5 "deep_think_iteration" (PInt 0)) with (PInt 0) by (unfold sget; rewrite E; reflexivity).
  unfold verdict.
  destruct (read_decision (decide_loop ag k)) as [sc reason]. cbn [at_cap fst].
  replace (Z.leb 4 0) with false by reflexivity.
  destruct (truthy sc); eexists _, _; (split; [reflexivity|]); try discriminate.
  intros _. unfold sget. rewrite E. reflexivity.
Qed.

Lemma loop_from_all_continue (ag : stages) (Hkeep : keeps_counter ag) (Himg : writes_image ag)
    (fuel : nat) :
  forall k0 s evs,
    truthy (sget s "deep_think_iteration" PNone) = false ->
    (forall j, k0 <= j < k0 + fuel -> verdict ag j = true) ->
    r_end (loop_from ag fuel k0 s evs) = MaxIterations /\ r_passes (loop_from ag fuel k0 s evs) = k0 + fuel.
Proof.
  induction fuel as [|fuel IH]; intros k0 s evs H0 Hall; cbn [loop_from].
  - split; [reflexivity | cbn; lia].
  - destruct (pass_fresh ag k0 s Hkeep Himg H0) as (s' & evs' & Hp & Hs').
    assert (Hv : verdict ag k0 = true) by (apply Hall; lia).
    rewrite Hp, Hv. cbn [negb].
    destruct (IH (S k0) s' (app evs evs') (Hs' Hv)) as [E1 E2]; [intros j Hj; apply Hall; lia|].
    split; [exact E1 | rewrite E2; lia].
Qed.

Lemma loop_from_first_stop (ag : stages) (Hkeep : keeps_counter ag) (Himg : writes_image ag)
    (fuel : nat) :
  forall k0 k s evs,
    truthy (sget s "deep_think_iteration" PNone) = false ->
    k0 <= k < k0 + fuel ->
    (forall j, k0 <= j < k -> verdict ag j = true) -> verdict ag k = false ->
    r_end (loop_from ag fuel k0 s evs) = Escalated /\ r_passes (loop_from ag fuel k0 s evs) = S k.
Proof.
  induction fuel as [|fuel IH]; intros k0 k s evs H0 Hk Hcont Hstop; [lia|].
  cbn [loop_from].
  destruct (pass_fresh ag k0 s Hkeep Himg H0) as (s' & evs' & Hp & Hs').
  rewrite Hp.
  destruct (decide (k0 = k)) as [<-|Hne].
  - rewrite Hstop. cbn. split; reflexivity.
  - assert (Hv : verdict ag k0 = true) by (apply Hcont; lia).
    rewrite Hv. cbn [negb].
    apply (IH (S k0) k s' (app evs evs') (Hs' Hv)); [lia | | exact Hstop].
    intros j Hj. apply Hcont. lia.
Qed.

(** X9: when the generation stage leaves [deep_think_iteration] alone,
    always leaves an image name in [last_generated_image] and removes no
    key, and the loop starts with no (or a falsy) counter, the loop ends
    exactly at the first pass whose verdict is to stop: it escalates after
    [k + 1] passes when the first stop verdict comes on pass [k] (0-based,
    [k < 5]). *)
Theorem loop_stops_at_first_stop_verdict (ag : stages) (s : session) (k : nat)
    (Hkeep : keeps_counter ag) (Himg : writes_image ag)
    (H0 : truthy (sget s "deep_think_iteration" PNone) = false)
    (Hk : k < max_iterations)
    (Hcont : forall j, j < k -> verdict ag j = true)
    (Hstop : verdict ag k = false) :
  r_end (deep_think_loop ag s) = Escalated /\ r_passes (deep_think_loop ag s) = S k.
Proof.
  apply (loop_from_first_stop ag Hkeep Himg max_iterations 0 k s [] H0);
    [unfold max_iterations in *; lia | | exact Hstop].
  intros j Hj. apply Hcont. lia.
Qed.

(** X10: under the same conditions, when every verdict is to continue the
    loop runs all [max_iterations] = 5 passes and ends without escalating:
    the termination check's cap of 4 never stops it. *)
Theorem loop_all_continue_runs_max (ag : stages) (s : session)
    (Hkeep : keeps_counter ag) (Himg : writes_image ag)
    (H0 : truthy (sget s "deep_think_iteration" PNone) = false)
    (Hall : forall j, j < max_iterations -> verdict ag j = true) :
  r_end (deep_think_loop ag s) = MaxIterations /\ r_passes (deep_think_loop ag s) = 5.
Proof.
  apply (loop_from_all_continue ag Hkeep Himg max_iterations 0 s [] H0).
  intros j Hj. apply Hall. lia.
Qed.


(** Stages whose verdict is to stop from the third pass on. *)
Definition stop_on_third : stages :=
  mkStages (fun _ => "summer sale poster")
           (fun k m s => <["last_generated_image" := PStr "summer_v1.png"]> s)
           (fun _ => PDict [("adheres_to_request", PBool false)])
           (fun k => PDecision (Nat.ltb k 2) "needs another pass").

Definition continue_always : stages :=
  mkStages (fun _ => "summer sale poster")
           (fun k m s => <["last_generated_image" := PStr "summer_v1.png"]> s)
           (fun _ => PDict [("adheres_to_request", PBool false)])
           (fun k => PDecision true "needs another pass").


Lemma insert_image_writes_image (v : pyval) (ag : stages)
  (Hg : forall k m s, generate ag k m s = <["last_generated_image" := v]> s) : writes_image ag.
Proof.
  split.
  - intros k m s. rewrite Hg, lookup_insert_eq. eexists. reflexivity.
  - intros k m s key [x Hx]. rewrite Hg.
    destruct (decide (key = "last_generated_image")) as [->|Hne].
    + rewrite lookup_insert_eq. eexists. reflexivity.
    + rewrite lookup_insert_ne by congruence. rewrite Hx. eexists. reflexivity.
Qed.

Lemma loop_stops_at_first_stop_verdict_witness :
  r_end (deep_think_loop stop_on_third ∅) = Escalated /\ r_passes (deep_think_loop stop_on_third ∅) = 3.
Proof.
  apply (loop_stops_at_first_stop_verdict stop_on_third ∅ 2).
  - intros k m s. cbn. apply lookup_insert_ne. discriminate.
  - apply (insert_image_writes_image (PStr "summer_v1.png")). reflexivity.
  - reflexivity.
  - unfold max_iterations. lia.
  - intros j Hj. destruct j as [|[|j]]; [reflexivity | reflexivity | lia].
  - reflexivity.
Defined.

Lemma loop_all_continue_runs_max_witness :
  r_end (deep_think_loop continue_always ∅) = MaxIterations /\ r_passes (deep_think_loop continue_always ∅) = 5.
Proof.
  apply (loop_all_continue_runs_max continue_always ∅).
  - intros k m s. cbn. apply lookup_insert_ne. discriminate.
  - apply (insert_image_writes_image (PStr "summer_v1.png")). reflexivity.
  - reflexivity.
  - intros j Hj. reflexivity.
Defined.


End LoopExtra.

Module DetectExtra.
Import Ledger Detect.

(** The parts of a message that are kept as they are when the prompt is
    cleaned: every part without a non-empty text. *)
Definition non_text_parts (ps : list content_part) : list content_part :=
  filter (fun p => negb (is_text_part p) = true) ps.

Lemma clean_parts_started (t : string) (ps : list content_part) :
  clean_parts t false ps = non_text_parts ps.
Proof.
  induction ps as [|p ps IH]; [reflexivity|].
  unfold non_text_parts. rewrite filter_cons.
  cbn [clean_parts]. destruct (is_text_part p); cbn; rewrite IH; reflexivity.
Qed.

Lemma user_text_nil : user_text [] = "".
Proof. reflexivity. Qed.

(** X11: when the callback does not detect the phrase (no parts, no text, or
    no "deep think" in the lowered text), it only sets [deep_think_mode]
    to False: every other key of the state and the message parts are left
    as they were. *)
Theorem detect_off_sets_mode_false (s : session) (parts : list content_part)
    (Hoff : strip (user_text parts) = "" \/ contains "deep think" (lower (user_text parts)) = false) :
  detect_deep_think_callback s parts = (<["deep_think_mode" := PBool false]> s, parts).
Proof.
  unfold detect_deep_think_callback.
  assert (Hs0 : <["deep_think_mode" := PBool false]>
                  (if decide (is_Some (s !! "deep_think_mode")) then s
                   else <["deep_think_mode" := PBool false]> s)
                = <["deep_think_mode" := PBool false]> s).
  { case_decide; [reflexivity | apply insert_insert_eq]. }
  destruct parts as [|p ps]; [rewrite Hs0; reflexivity|].
  destruct Hoff as [He | Hc].
  - rewrite He. cbn [String.eqb]. rewrite Hs0. reflexivity.
  - destruct (String.eqb (strip (user_text (p :: ps))) ""); rewrite ?Hc, Hs0; reflexivity.
Qed.

(** Message without the phrase. *)
Definition plain_message : list content_part := [CText "make a summer poster"].

Lemma detect_off_sets_mode_false_witness :
  detect_deep_think_callback (<["current_asset_name" := PStr "promo"]> ∅) plain_message
  = (<["deep_think_mode" := PBool false]> (<["current_asset_name" := PStr "promo"]> ∅), plain_message).
Proof.
  apply detect_off_sets_mode_false. right. vm_compute. reflexivity.
Defined.

(** X12: when the lowered text of the message contains "deep think", the
    callback sets [deep_think_mode] to True and stores the stripped text as
    [original_deep_think_prompt], leaving every other key as it was; in the
    parts, the cleaned text replaces the first part only when that part is a
    text, every other text part is dropped, and the non-text parts (the
    images) are kept in order. *)
Theorem detect_on_rewrites_parts (s : session) (parts : list content_part)
    (Hne : strip (user_text parts) <> "")
    (Hon : contains "deep think" (lower (user_text parts)) = true) :
  let t := user_text parts in
  let cleaned := Listing.join " " (split (replace (replace (replace t "deep think" "")
                    "Deep Think" "") "DEEP THINK" "")) in
  let '(s', parts') := detect_deep_think_callback s parts in
  s' !! "deep_think_mode" = Some (PBool true) /\
  s' !! "original_deep_think_prompt" = Some (PStr (strip t)) /\
  (forall k, k <> "deep_think_mode" -> k <> "original_deep_think_prompt" -> s' !! k = s !! k) /\
  parts' = app (match parts with
                | p :: _ => if is_text_part p then [CText cleaned] else []
                | [] => [] end) (non_text_parts parts).
Proof.
  cbv zeta. unfold detect_deep_think_callback.
  destruct parts as [|p ps]; [exfalso; apply Hne; reflexivity|].
  apply String.eqb_neq in Hne. rewrite Hne, Hon.
  split; [|split; [|split]].
  - rewrite lookup_insert_ne by discriminate. apply lookup_insert_eq.
  - apply lookup_insert_eq.
  - intros k Hk1 Hk2. rewrite !lookup_insert_ne by congruence.
    case_decide; [reflexivity|]. apply lookup_insert_ne. congruence.
  - cbn [clean_parts]. unfold non_text_parts at 1. rewrite filter_cons.
    destruct (is_text_part p); cbn; rewrite clean_parts_started; reflexivity.
Qed.

(** A message with an image first and the phrase in a later text. *)
Definition image_then_text : list content_part :=
  [CInline (mkPart "image/png" "IMG"); CText "Deep Think a poster"; CText "for spring"].

Lemma detect_on_rewrites_parts_witness :
  strip (user_text image_then_text) <> "" /\
  contains "deep think" (lower (user_text image_then_text)) = true /\
  snd (detect_deep_think_callback ∅ image_then_text) = [CInline (mkPart "image/png" "IMG")].
Proof.
  assert (H1 : strip (user_text image_then_text) <> "") by (vm_compute; discriminate).
  assert (H2 : contains "deep think" (lower (user_text image_then_text)) = true) by (vm_compute; reflexivity).
  split; [exact H1 | split; [exact H2|]].
  pose proof (detect_on_rewrites_parts ∅ image_then_text H1 H2) as H. cbv zeta in H.
  destruct (detect_deep_think_callback ∅ image_then_text) as [s' parts'].
  destruct H as (_ & _ & _ & ->). reflexivity.
Defined.

End DetectExtra.

Module StoreExtra.
Import Ledger Post WardrobeTools.




End StoreExtra.

Module AutoStoreExtra.
Import Ledger Post WardrobeTools.

(** The inline image parts of a list of parts, in order. *)
Fixpoint image_parts (ps : list content_part) : list part :=
  match ps with
  | [] => []
  | CInline p :: ps' => if Upload.is_image p then p :: image_parts ps' else image_parts ps'
  | CText _ :: ps' => image_parts ps'
  end.

Section Parts.
Variable md5_8 : string -> string.
Variable clock : nat -> Z.

Lemma store_parts_no_effect (save_fails : bool) (ps : list content_part) :
  (image_parts ps = [] \/ save_fails = true) ->
  forall i c, store_parts md5_8 clock save_fails i c ps = c.
Proof.
  intros [H| ->].
  - induction ps as [|[t|p] ps IH]; intros i c; cbn in *; [reflexivity | apply IH; exact H |].
    destruct (Upload.is_image p); [discriminate H | apply IH; exact H].
  - induction ps as [|[t|p] ps IH]; intros i c; cbn; [reflexivity | apply IH |].
    destruct (Upload.is_image p); apply IH.
Qed.

Lemma store_parts_last (ps : list content_part) :
  forall i c l p, image_parts ps = app l [p] ->
  let c' := store_parts md5_8 clock false i c ps in
  let fn := auto_filename md5_8 clock (i + List.length l) p in
  st c' !! "latest_reference_image" = Some (PStr fn) /\
  load_artifact c' fn = Some p /\
  (forall k, k <> "latest_reference_image" -> st c' !! k = st c !! k).
Proof.
  induction ps as [|[t|p0] ps IH]; intros i c l p Hl; cbv zeta in *; cbn [store_parts image_parts] in *.
  - destruct l; discriminate Hl.
  - apply IH. exact Hl.
  - destruct (Upload.is_image p0); [|apply IH; exact Hl].
    cbn [save_artifact].
    set (c1 := set_st _ _).
    destruct l as [|p1 l].
    + cbn in Hl. injection Hl as -> Hnil.
      rewrite (store_parts_no_effect false ps (or_introl Hnil)).
      rewrite Nat.add_0_r. unfold c1, set_st, load_artifact; cbn.
      split; [apply lookup_insert_eq|split].
      * rewrite lookup_insert_eq. apply last_snoc.
      * intros k Hk. apply lookup_insert_ne. congruence.
    + cbn in Hl. injection Hl as -> Hl.
      destruct (IH (S i) c1 l p Hl) as (H1 & H2 & H3).
      replace (i + List.length (p1 :: l)) with (S i + List.length l) by (cbn; lia).
      split; [exact H1 | split; [exact H2|]].
      intros k Hk. rewrite H3 by exact Hk. unfold c1, set_st. cbn.
      apply lookup_insert_ne. congruence.
Qed.

Lemma auto_filename_nonempty (i : nat) (p : part) :
  opt_truthy (Some (auto_filename md5_8 clock i p)) = Some (auto_filename md5_8 clock i p).
Proof. reflexivity. Qed.

End Parts.

(** X15: [auto_store_reference_images] changes nothing (state and artifacts)
    when the request holds no inline image part, or when saving raises
    (the exception is only logged). *)
Theorem auto_store_no_effect (md5_8 : string -> string) (clock : nat -> Z) (save_fails : bool)
    (c : ctx) (contents : list (list content_part))
    (H : image_parts (concat contents) = [] \/ save_fails = true) :
  auto_store_reference_images md5_8 clock save_fails c contents = c.
Proof.
  unfold auto_store_reference_images. destruct contents; [reflexivity|].
  apply store_parts_no_effect. exact H.
Qed.

Lemma auto_store_no_effect_witness :
  auto_store_reference_images (fun _ => "0cc175b9") (fun _ => 1760%Z) false (mkCtx ∅ ∅ [])
    [[CText "a red dress"]; [CInline (mkPart "application/pdf" "PDF")]] = mkCtx ∅ ∅ [].
Proof.
  apply auto_store_no_effect. left. reflexivity.
Defined.

(** X16: when saves succeed and the request holds inline image parts (in any
    of its messages), after [auto_store_reference_images] the
    [latest_reference_image] is the filename generated for the last of them
    (its position [n] among the image parts picks the clock reading), that
    file loads that last image, so it is the reference of the next wardrobe
    [generate_image] called without a reference name, and no other key of
    the state changes. *)
Theorem auto_store_latest_is_last_image (md5_8 : string -> string) (clock : nat -> Z)
    (c : ctx) (contents : list (list content_part)) (l : list part) (p : part)
    (Himgs : image_parts (concat contents) = app l [p]) :
  let c' := auto_store_reference_images md5_8 clock false c contents in
  let fn := auto_filename md5_8 clock (List.length l) p in
  st c' !! "latest_reference_image" = Some (PStr fn) /\
  load_artifact c' fn = Some p /\
  Wardrobe.reference_image_part c' None = Some p /\
  (forall k, k <> "latest_reference_image" -> st c' !! k = st c !! k).
Proof.
  cbv zeta. unfold auto_store_reference_images.
  destruct contents as [|m ms]; [destruct l; discriminate Himgs|].
  destruct (store_parts_last md5_8 clock (concat (m :: ms)) 0 c l p Himgs) as (H1 & H2 & H3).
  cbn [Nat.add] in H1, H2.
  split; [exact H1 | split; [exact H2 | split; [|exact H3]]].
  unfold Wardrobe.reference_image_part, Wardrobe.reference_filename. cbn [opt_truthy].
  unfold sget. rewrite H1. cbn [as_filename]. rewrite auto_filename_nonempty. exact H2.
Qed.

Definition img_a : part := mkPart "image/png" "AAA".
Definition img_b : part := mkPart "image/jpeg" "BBB".

Lemma auto_store_latest_is_last_image_witness :
  Wardrobe.reference_image_part
    (auto_store_reference_images (fun d => if String.eqb d "AAA" then "e1faffb3" else "2bb225f0")
       (fun i => (1760 + Z.of_nat i)%Z) false (mkCtx ∅ ∅ [])
       [[CInline img_a; CText "like this"]; [CText "and this"; CInline img_b]]) None = Some img_b.
Proof.
  apply (auto_store_latest_is_last_image _ _ (mkCtx ∅ ∅ [])
           [[CInline img_a; CText "like this"]; [CText "and this"; CInline img_b]] [img_a] img_b).
  reflexivity.
Defined.

End AutoStoreExtra.

Module WardrobeEditExtra.
Import Ledger Post WardrobeTools.

(** The edit request of the social media [edit_image] with the prompt
    replaced. *)
Definition with_prompt (inputs : EditImageInput) (p : string) : EditImageInput :=
  mkEdit (ei_artifact_filename inputs) p (ei_asset_name inputs) (ei_reference_image_filename inputs).

(** X17: with the API key set, the wardrobe [edit_image] behaves exactly as
    the social media [edit_image] (same returned text, same state, same
    artifacts, same model request), except that when the reference image
    loads, the prompt sent is the faithful-editing prompt built from the
    user's prompt. *)
Theorem wardrobe_edit_is_post_edit (env : model_env) (c : ctx) (inputs : EditImageInput)
    (Hkey : env_api_key env = true) :
  WardrobeTools.edit_image env c inputs
  = Post.edit_image env c
      (match reference_image_part c (ei_reference_image_filename inputs) with
       | Some _ => with_prompt inputs (faithful_edit_prompt inputs)
       | None => inputs
       end).
Proof.
  destruct (reference_image_part c (ei_reference_image_filename inputs)) as [r|] eqn:Er;
    unfold WardrobeTools.edit_image, Post.edit_image; rewrite Hkey; cbv zeta; cbn [negb];
    cbn [with_prompt ei_artifact_filename ei_prompt ei_asset_name ei_reference_image_filename];
    rewrite Er; reflexivity.
Qed.

Definition ctx_with_reference : ctx :=
  mkCtx (<["latest_reference_image" := PStr "reference_image_v1.png"]> ∅)
        (<["gown_v1.png" := [ToolFacts.image_png]]>
         (<["reference_image_v1.png" := [mkPart "image/png" "REF"]]> ∅)) [].

Definition edit_gown : EditImageInput := mkEdit "gown_v1.png" "make it navy" None (Some "latest").

Lemma wardrobe_edit_is_post_edit_witness :
  WardrobeTools.edit_image ToolFacts.env_ok ctx_with_reference edit_gown
  = Post.edit_image ToolFacts.env_ok ctx_with_reference (with_prompt edit_gown (faithful_edit_prompt edit_gown)).
Proof.
  exact (wardrobe_edit_is_post_edit ToolFacts.env_ok ctx_with_reference edit_gown eq_refl).
Defined.

End WardrobeEditExtra.
